(** * GigaChat Content Assistant: a shallow embedding of the service layer

    The development follows the Python sources
    - [src/services/llm_client.py]  (model client: configuration, streaming),
    - [src/services/content_gen.py] (JSON extraction, content plan, streams),
    - [src/services/pdf_maker.py]   (font registration, Markdown to markup),
    - [src/views/longread_tab.py]   (HTML export).

    Python [str] values are modelled as [string]: a sequence of UTF-8 bytes.
    Every character the code inspects (brackets, asterisks, the line feed,
    the backtick, the dollar sign, the backslash) is ASCII, and no UTF-8
    continuation byte equals an ASCII byte, so a byte-wise reading of the
    scans below agrees with Python's code-point-wise reading. *)

From Stdlib Require Import Ascii String PrimFloat Bool Arith Lia.
From stdpp Require Import base option list strings gmap.

Set Warnings "-inexact-float,-register-all".
Local Open Scope bool_scope.

(** ** Python's [re] engine, as far as the sources use it

    The three patterns of the repository are sequences of literal
    characters with one [.*] (greedy) or [.*?] (lazy) in between; the lazy
    ones are wrapped in group 1.  [match_here] is the backtracking matcher
    anchored at the head of the text: it returns the length of the match
    and the text taken by the star. *)
Module Re.

Inductive atom : Type :=
  | Chr (c : ascii)
  | AnyStar (greedy dotall : bool).

Definition newline : ascii := "010"%char.

(** What [.] accepts: every character with [re.DOTALL], every character
    but the line feed without it. *)
Definition dot (dotall : bool) (a : ascii) : bool :=
  dotall || negb (Ascii.eqb a newline).

Definition step (a : ascii) (r : nat * string) : nat * string :=
  (S (fst r), snd r).

Definition take (a : ascii) (r : nat * string) : nat * string :=
  (S (fst r), String a (snd r)).

Fixpoint match_here (pat : list atom) : string -> option (nat * string) :=
  match pat with
  | [] => fun _ => Some (0, EmptyString)
  | Chr c :: p => fun s =>
      match s with
      | String a s' => if Ascii.eqb a c then step a <$> match_here p s' else None
      | EmptyString => None
      end
  | AnyStar true dotall :: p =>
      fix star (s : string) : option (nat * string) :=
        match s with
        | String a s' =>
            if dot dotall a then
              match star s' with
              | Some r => Some (take a r)
              | None => match_here p s
              end
            else match_here p s
        | EmptyString => match_here p s
        end
  | AnyStar false dotall :: p =>
      fix star (s : string) : option (nat * string) :=
        match match_here p s with
        | Some r => Some r
        | None =>
            match s with
            | String a s' => if dot dotall a then take a <$> star s' else None
            | EmptyString => None
            end
        end
  end.

(** [re.search]: the leftmost position at which the pattern matches,
    with the length of the match and group 1. *)
Fixpoint search (pat : list atom) (s : string) : option (nat * nat * string) :=
  match match_here pat s with
  | Some (n, g) => Some (0, n, g)
  | None =>
      match s with
      | String _ s' => (fun '(i, n, g) => (S i, n, g)) <$> search pat s'
      | EmptyString => None
      end
  end.

(** [re.sub]: every non-overlapping match, left to right, is replaced by
    [repl] applied to group 1; [skip] counts the characters of the current
    match still to be passed over.  An empty match is replaced where it
    stands and the scan moves one character on (Python 3.7 and later). *)
Fixpoint sub_from (pat : list atom) (repl : string -> string)
    (s : string) (skip : nat) : string :=
  match s with
  | EmptyString =>
      match skip, match_here pat EmptyString with
      | 0, Some (_, g) => repl g
      | _, _ => EmptyString
      end
  | String a s' =>
      match skip with
      | S k => sub_from pat repl s' k
      | 0 =>
          match match_here pat s with
          | Some (S n, g) => repl g +:+ sub_from pat repl s' n
          | Some (0, g) => repl g +:+ String a (sub_from pat repl s' 0)
          | None => String a (sub_from pat repl s' 0)
          end
      end
  end.

Definition sub (pat : list atom) (repl : string -> string) (s : string) : string :=
  sub_from pat repl s 0.

End Re.

(** ** [content_gen._extract_json_from_text] *)

(** The pattern [r'\[.*\]'] compiled with [re.DOTALL]. *)
Definition json_array_pattern : list Re.atom :=
  [Re.Chr "["; Re.AnyStar true true; Re.Chr "]"].

Definition _extract_json_from_text (text : string) : string :=
  match Re.search json_array_pattern text with
  | Some (i, n, _) => String.substring i n text
  | None => text
  end.


(** ** [pdf_maker._md_to_html_tags] *)

(** [r'\*\*(.*?)\*\*'] and [r'\*(.*?)\*'], both without [re.DOTALL]. *)
Definition bold_pattern : list Re.atom :=
  [Re.Chr "*"; Re.Chr "*"; Re.AnyStar false false; Re.Chr "*"; Re.Chr "*"].

Definition italic_pattern : list Re.atom :=
  [Re.Chr "*"; Re.AnyStar false false; Re.Chr "*"].

Definition bold_repl (g : string) : string := "<b>" +:+ g +:+ "</b>".
Definition italic_repl (g : string) : string := "<i>" +:+ g +:+ "</i>".

Definition _md_to_html_tags (text : string) : string :=
  let text := Re.sub bold_pattern bold_repl text in
  let text := Re.sub italic_pattern italic_repl text in
  text.

(** ** Python values, exceptions and the environment of a call *)

(** The values that configuration lookups and optional arguments carry. *)
Inductive value : Type :=
  | VNone
  | VBool (b : bool)
  | VStr (s : string)
  | VFloat (f : float).

(** Python truthiness: [None], [False], the empty string and a zero float
    are false. *)
Definition truthy (v : value) : bool :=
  match v with
  | VNone => false
  | VBool b => b
  | VStr s => negb (String.eqb s "")
  | VFloat f => negb (PrimFloat.eqb f 0%float)
  end.

(** [a or b] *)
Definition py_or (a b : value) : value := if truthy a then a else b.

Inductive exn_kind : Type :=
  | FileNotFoundError
  | ValueError
  | RuntimeError
  | TypeError
  | KeyError
  | JSONDecodeError
  | ValidationError
  | StreamlitSecretNotFoundError
  | SdkError.

(** An exception: its class, the text [str(e)] gives, and [__cause__]. *)
Inductive exn : Type :=
  | Exn (kind : exn_kind) (msg : string) (cause : option exn).

Definition exn_kind_of (e : exn) : exn_kind := let 'Exn k _ _ := e in k.
Definition str_exn (e : exn) : string := let 'Exn _ m _ := e in m.
Definition exn_cause (e : exn) : option exn := let 'Exn _ _ c := e in c.

(** A computation that returns or raises. *)
Definition result (A : Type) : Type := exn + A.

Definition bind {A B : Type} (r : result A) (f : A -> result B) : result B :=
  match r with
  | inl e => inl e
  | inr a => f a
  end.

Notation "x <- r ;; k" := (bind r (fun x => k))
  (at level 100, r at next level, right associativity).

Definition raise {A : Type} (e : exn) : result A := inl e.

(** ** [llm_client]: the remote API as the client sees it *)

(** The keyword arguments [GigaChat(...)] is built with. *)
Record GigaChat : Type := {
  credentials : value;
  scope : value;
  model : value;
  ca_bundle_file : value;
  verify_ssl_certs : value
}.

Inductive MessagesRole : Type := USER | ASSISTANT | SYSTEM.

Record Messages : Type := {
  role : MessagesRole;
  content : string
}.

(** The chat request: [Chat(messages=..., temperature=..., max_tokens=...,
    model=...)]. *)
Record Chat : Type := {
  messages : list Messages;
  temperature : value;
  max_tokens : nat;
  chat_model : value
}.

(** One streamed chunk: [chunk.choices], each with [delta.content]
    ([None] or a string). *)
Record Choice : Type := { delta_content : option string }.
Record ChatChunk : Type := { choices : list Choice }.

(** What iterating [giga.stream(chat)] does: chunks arrive, then the stream
    ends or the SDK raises. *)
Inductive response_stream : Type :=
  | Chunk (c : ChatChunk) (rest : response_stream)
  | EndOfStream
  | Fails (e : exn).

(** The world a call runs in: Streamlit's session state and secrets, the
    process environment, the files below [BASE_DIR] and the remote API.
    [secrets_failure] is the exception reading [st.secrets] raises, if any:
    Streamlit raises when it finds no secrets file (or cannot parse it), and
    [secrets] is what it holds when it can be read. *)
Record world : Type := {
  session_state : gmap string value;
  secrets_failure : option exn;
  secrets : gmap string (gmap string value);
  environ : gmap string string;
  files : gmap string string;
  giga_stream : GigaChat -> Chat -> response_stream
}.

(** [d.get(k)] and [d.get(k, default)] *)
Definition dict_get (d : gmap string value) (k : string) : value :=
  default VNone (d !! k).

Definition dict_get_default (d : gmap string value) (k : string) (dflt : value) : value :=
  default dflt (d !! k).

(** [os.getenv(k)] and [os.getenv(k, default)] *)
Definition getenv (w : world) (k : string) : value :=
  match environ w !! k with
  | Some s => VStr s
  | None => VNone
  end.

Definition getenv_default (w : world) (k : string) (dflt : string) : value :=
  match environ w !! k with
  | Some s => VStr s
  | None => VStr dflt
  end.

(** Paths are written relative to [BASE_DIR]; [os.path.join(BASE_DIR, p)]
    leaves an absolute [p] as it is, so both kinds are keys of [files]. *)
Definition base_join (p : string) : string := p.

Definition path_exists (w : world) (p : string) : bool :=
  bool_decide (is_Some (files w !! p)).

Definition PROMPTS_DIR : string := "assets/prompts".

Definition DEFAULT_TEMPERATURE : float := 0.7%float.
Definition DEFAULT_MAX_TOKENS : nat := 4000.

(** *** [load_prompt] *)
Definition load_prompt (template_name : string) (w : world) : result string :=
  let file_path := PROMPTS_DIR +:+ "/" +:+ template_name +:+ ".txt" in
  match files w !! file_path with
  | None =>
      raise (Exn FileNotFoundError
               ("Файл шаблона промпта не найден: " +:+ file_path) None)
  | Some text => inr text
  end.

(** *** [_get_gigachat_client] *)

(** The model the client object is configured with: session, then secrets,
    then the environment, then the literal. *)
Definition client_model (w : world) : value :=
  let secrets := default ∅ (secrets w !! "gigachat") in
  dict_get_default (session_state w) "llm_model"
    (py_or (dict_get secrets "model")
           (getenv_default w "GIGACHAT_MODEL" "GigaChat-2-Max")).

(** The first statement, [st.secrets.get("gigachat", {})], already reads
    the secrets: when they cannot be read, Streamlit's exception leaves the
    function there, before the environment is looked at. *)
Definition _get_gigachat_client (w : world) : result GigaChat :=
  match secrets_failure w with
  | Some e => raise e
  | None =>
  let secrets := default ∅ (secrets w !! "gigachat") in
  let credentials := py_or (dict_get secrets "credentials")
                           (getenv w "GIGACHAT_CREDENTIALS") in
  if negb (truthy credentials) then
    raise (Exn ValueError "Не настроены ключи доступа GigaChat." None)
  else
    let scope := py_or (dict_get secrets "scope")
                       (getenv_default w "GIGACHAT_SCOPE" "GIGACHAT_API_PERS") in
    let model := client_model w in
    let ca_bundle := py_or (dict_get secrets "ca_bundle_file")
                           (getenv w "GIGACHAT_CA_BUNDLE_FILE") in
    if truthy ca_bundle then
      match ca_bundle with
      | VStr p =>
          let ca_bundle := base_join p in
          inr {| credentials := credentials;
                 scope := scope;
                 model := model;
                 ca_bundle_file :=
                   if path_exists w ca_bundle then VStr ca_bundle else VNone;
                 verify_ssl_certs := VBool true |}
      | _ => raise (Exn TypeError "expected str, bytes or os.PathLike object" None)
      end
    else
      inr {| credentials := credentials;
             scope := scope;
             model := model;
             ca_bundle_file := VNone;
             verify_ssl_certs := dict_get_default secrets "verify_ssl" (VBool false) |}
  end.

(** *** [generate_stream] and [generate_sync] *)

(** A generator, seen from its consumer: it issues the network request,
    yields a fragment, returns, or raises. *)
Inductive generator : Type :=
  | Request (giga : GigaChat) (chat : Chat) (k : generator)
  | Yield (fragment : string) (k : generator)
  | Return
  | Raise (e : exn).

(** [except Exception as e: raise RuntimeError(f"...{str(e)}") from e] *)
Definition wrap_transport (e : exn) : exn :=
  Exn RuntimeError ("Ошибка GigaChat API: " +:+ str_exn e) (Some e).

(** [chunk.choices and chunk.choices[0].delta.content] *)
Definition chunk_text (c : ChatChunk) : option string :=
  match choices c with
  | [] => None
  | ch :: _ =>
      match delta_content ch with
      | Some s => if String.eqb s "" then None else Some s
      | None => None
      end
  end.

(** The [for chunk in response_stream] loop inside the [try]. *)
Fixpoint forward (r : response_stream) : generator :=
  match r with
  | Chunk c rest =>
      match chunk_text c with
      | Some s => Yield s (forward rest)
      | None => forward rest
      end
  | EndOfStream => Return
  | Fails e => Raise (wrap_transport e)
  end.

Definition generate_stream (prompt : string) (temperature : value) (w : world)
    : generator :=
  let temp := py_or temperature
                (dict_get_default (session_state w) "llm_temperature"
                                  (VFloat DEFAULT_TEMPERATURE)) in
  let model_name :=
    dict_get_default (session_state w) "llm_model" (VStr "GigaChat-2-Max") in
  match _get_gigachat_client w with
  | inl e => Raise (wrap_transport e)
  | inr giga =>
      let messages := [{| role := USER; content := prompt |}] in
      let chat := {| messages := messages;
                     temperature := temp;
                     max_tokens := DEFAULT_MAX_TOKENS;
                     chat_model := model_name |} in
      Request giga chat (forward (giga_stream w giga chat))
  end.

(** [list(generator)]: drain it; an exception raised on the way escapes. *)
Fixpoint py_list (g : generator) : result (list string) :=
  match g with
  | Request _ _ k => py_list k
  | Yield s k => l <- py_list k ;; inr (s :: l)
  | Return => inr []
  | Raise e => raise e
  end.

(** ["".join(l)] *)
Fixpoint join_empty (l : list string) : string :=
  match l with
  | [] => ""
  | s :: l' => s +:+ join_empty l'
  end.

Definition generate_sync (prompt : string) (temperature : value) (w : world)
    : result string :=
  l <- py_list (generate_stream prompt temperature w) ;;
  inr (join_empty l).

(** What a consumer of the generator observes. *)
Fixpoint fragments (g : generator) : list string :=
  match g with
  | Request _ _ k => fragments k
  | Yield s k => s :: fragments k
  | Return | Raise _ => []
  end.

Fixpoint raised (g : generator) : option exn :=
  match g with
  | Request _ _ k | Yield _ k => raised k
  | Return => None
  | Raise e => Some e
  end.

Fixpoint requests (g : generator) : list (GigaChat * Chat) :=
  match g with
  | Request giga chat k => (giga, chat) :: requests k
  | Yield _ k => requests k
  | Return | Raise _ => []
  end.

(** ** [content_gen]: content plan and streamed kinds *)

(** A decoded JSON document, as [json.loads] returns it; an object keeps its
    members in document order. *)
Inductive json : Type :=
  | JNull
  | JBool (b : bool)
  | JNumber (literal : string)
  | JString (s : string)
  | JArray (elements : list json)
  | JObject (members : list (string * json)).

(** The two Python library calls whose text-level behaviour the service
    relies on but does not define: [str.format] with keyword arguments
    (raising [KeyError] and the like) and [json.loads] (raising
    [JSONDecodeError]). *)
Class Library : Type := {
  str_format : string -> list (string * string) -> result string;
  json_loads : string -> result json
}.

(** The Pydantic model [ContentPlanItem] of [src/models/schemas.py]: the
    validated item type and the validation of one decoded element, failing
    with the text of the validation error. *)
Class Schema : Type := {
  ContentPlanItem : Type;
  validate_item : json -> string + ContentPlanItem
}.

(** [isinstance(parsed_data, list)] and the wrapping that follows it. *)
Definition wrap_bare_list (parsed_data : json) : json :=
  match parsed_data with
  | JArray _ => JObject [("items", parsed_data)]
  | _ => parsed_data
  end.

(** [dict[k]] on decoded members: the last occurrence of a repeated key is
    the one [json.loads] keeps. *)
Fixpoint member (k : string) (ms : list (string * json)) : option json :=
  match ms with
  | [] => None
  | (k', v) :: ms' =>
      match member k ms' with
      | Some v' => Some v'
      | None => if String.eqb k' k then Some v else None
      end
  end.

(** Validation of a list field, element by element, in order. *)
Fixpoint validate_items `{Schema} (js : list json) : string + list ContentPlanItem :=
  match js with
  | [] => inr []
  | j :: js' =>
      match validate_item j with
      | inl m => inl m
      | inr it =>
          match validate_items js' with
          | inl m => inl m
          | inr its => inr (it :: its)
          end
      end
  end.

(** Modelled from the spec: the root model [ContentPlan] of
    [src/models/schemas.py], which is not among the sources.  The spec has
    it as "an ordered sequence of ContentPlanItem" whose only invariant is
    "list of valid items, order preserved"; the caller reads its field
    [items].  Building the model from the keyword arguments unpacked from
    [parsed_data] and reading [.items] therefore needs a mapping (anything
    else is a [TypeError] of the call itself), a member [items] that is a
    list, and every element valid. *)
Definition ContentPlan_items `{Schema} (parsed_data : json)
    : result (list ContentPlanItem) :=
  match parsed_data with
  | JObject ms =>
      match member "items" ms with
      | Some (JArray js) =>
          match validate_items js with
          | inr its => inr its
          | inl m => raise (Exn ValidationError m None)
          end
      | Some _ => raise (Exn ValidationError "items: Input should be a valid list" None)
      | None => raise (Exn ValidationError "items: Field required" None)
      end
  | _ => raise (Exn TypeError "argument after ** must be a mapping" None)
  end.

(** [except (json.JSONDecodeError, ValidationError) as e: raise ValueError(...)] *)
Definition format_error (raw_response : string) (e : exn) : exn :=
  match exn_kind_of e with
  | JSONDecodeError | ValidationError =>
      Exn ValueError
        ("Ошибка парсинга ответа от LLM: " +:+ str_exn e +:+
         String Re.newline "Сырой ответ: " +:+ raw_response) None
  | _ => e
  end.

Definition generate_content_plan `{Library} `{Schema}
    (niche period channels extra_context : string) (w : world)
    : result (list ContentPlanItem) :=
  prompt_template <- load_prompt "content_plan" w ;;
  final_prompt <- str_format prompt_template
      [("niche", niche); ("period", period); ("channels", channels);
       ("extra_context", extra_context)] ;;
  raw_response <- generate_sync final_prompt (VFloat 0.3%float) w ;;
  let clean_json_str := _extract_json_from_text raw_response in
  match (parsed_data <- json_loads clean_json_str ;;
         ContentPlan_items (wrap_bare_list parsed_data)) with
  | inr items => inr items
  | inl e => raise (format_error raw_response e)
  end.

Definition generate_broadcast_stream `{Library}
    (channel business_niche topic tone brand_keywords : string) (w : world)
    : result generator :=
  prompt_template <- load_prompt "broadcasts" w ;;
  final_prompt <- str_format prompt_template
      [("channel", channel); ("business_niche", business_niche);
       ("topic", topic); ("tone", tone); ("brand_keywords", brand_keywords)] ;;
  inr (generate_stream final_prompt (VFloat 0.7%float) w).

Definition generate_lead_magnet_stream `{Library}
    (lm_type topic audience length business_niche : string) (w : world)
    : result generator :=
  prompt_template <- load_prompt "lead_magnets" w ;;
  final_prompt <- str_format prompt_template
      [("lm_type", lm_type); ("topic", topic); ("audience", audience);
       ("length", length); ("business_niche", business_niche)] ;;
  inr (generate_stream final_prompt (VFloat 0.7%float) w).

Definition generate_seo_article_stream `{Library}
    (business_niche topic target_keywords length : string) (w : world)
    : result generator :=
  prompt_template <- load_prompt "seo_articles" w ;;
  final_prompt <- str_format prompt_template
      [("business_niche", business_niche); ("topic", topic);
       ("target_keywords", target_keywords); ("length", length)] ;;
  inr (generate_stream final_prompt (VFloat 0.8%float) w).

(** ** [pdf_maker]: font registration *)

Definition FONT_FAMILY : string := "Roboto".
Definition FONTS_DIR : string := "assets/fonts".
Definition FONT_REGULAR : string := FONTS_DIR +:+ "/Roboto-Regular.ttf".
Definition FONT_BOLD : string := FONTS_DIR +:+ "/Roboto-Bold.ttf".

(** The process-wide state the module touches: its own flag, ReportLab's
    table of registered fonts and ReportLab's (family, bold, italic) map. *)
Record font_state : Type := {
  _FONTS_REGISTERED : bool;
  registered : gset string;
  mapping : gmap (string * bool * bool) string
}.

Definition fresh_fonts : font_state :=
  {| _FONTS_REGISTERED := false; registered := ∅; mapping := ∅ |}.

(** [pdfmetrics.registerFont(TTFont(name, path))] for a readable font file *)
Definition registerFont (name : string) (st : font_state) : font_state :=
  {| _FONTS_REGISTERED := _FONTS_REGISTERED st;
     registered := {[name]} ∪ registered st;
     mapping := mapping st |}.

(** [addMapping(family, bold, italic, psname)] *)
Definition addMapping (family : string) (bold italic : bool) (psname : string)
    (st : font_state) : font_state :=
  {| _FONTS_REGISTERED := _FONTS_REGISTERED st;
     registered := registered st;
     mapping := <[(family, bold, italic) := psname]> (mapping st) |}.

Definition set_registered (st : font_state) : font_state :=
  {| _FONTS_REGISTERED := true;
     registered := registered st;
     mapping := mapping st |}.

Definition _setup_fonts (w : world) (st : font_state) : result font_state :=
  if _FONTS_REGISTERED st then inr st
  else if negb (path_exists w FONT_REGULAR) then
    raise (Exn FileNotFoundError
             ("Не найден базовый шрифт " +:+ FONT_REGULAR +:+
              ". Добавьте его в папку assets/fonts/.") None)
  else
    let st := registerFont (FONT_FAMILY +:+ "-Regular") st in
    let st :=
      if path_exists w FONT_BOLD then
        let st := registerFont (FONT_FAMILY +:+ "-Bold") st in
        let st := addMapping FONT_FAMILY false false (FONT_FAMILY +:+ "-Regular") st in
        let st := addMapping FONT_FAMILY true false (FONT_FAMILY +:+ "-Bold") st in
        let st := addMapping FONT_FAMILY false true (FONT_FAMILY +:+ "-Regular") st in
        addMapping FONT_FAMILY true true (FONT_FAMILY +:+ "-Bold") st
      else
        let st := addMapping FONT_FAMILY false false (FONT_FAMILY +:+ "-Regular") st in
        let st := addMapping FONT_FAMILY true false (FONT_FAMILY +:+ "-Regular") st in
        let st := addMapping FONT_FAMILY false true (FONT_FAMILY +:+ "-Regular") st in
        addMapping FONT_FAMILY true true (FONT_FAMILY +:+ "-Regular") st in
    inr (set_registered st).

(** The [fontName] of the three paragraph styles [generate_pdf] creates. *)
Record pdf_styles : Type := {
  title_style : string;
  h2_style : string;
  body_style : string
}.

(** [font_reg] and [font_bold] as [generate_pdf] chooses them after the
    font setup, and the styles they go to: titles and headings take
    [font_bold], the body takes [font_reg]. *)
Definition style_fonts (w : world) : pdf_styles :=
  let font_reg := FONT_FAMILY +:+ "-Regular" in
  let font_bold :=
    if path_exists w FONT_BOLD then FONT_FAMILY +:+ "-Bold" else font_reg in
  {| title_style := font_bold;
     h2_style := font_bold;
     body_style := font_reg |}.



(** ** [longread_tab.create_html_export] *)

(** [s.replace(old, new)] for a one-character [old] *)
Fixpoint replace_char (old : ascii) (new : string) (s : string) : string :=
  match s with
  | EmptyString => EmptyString
  | String a s' =>
      if Ascii.eqb a old then new +:+ replace_char old new s'
      else String a (replace_char old new s')
  end.

Definition backslash : ascii := "092"%char.
Definition backtick : ascii := "096"%char.
Definition dollar : ascii := "036"%char.
Definition dquote : string := String "034"%char EmptyString.
Definition nl : string := String Re.newline EmptyString.

(** [markdown_text.replace("`", "\\`").replace("$", "\\$")] *)
Definition safe_md (markdown_text : string) : string :=
  replace_char dollar (String backslash (String dollar EmptyString))
    (replace_char backtick (String backslash (String backtick EmptyString))
       markdown_text).

(** The page template up to the opening backtick of the script literal. *)
Definition html_head (title : string) : string :=
  "<!DOCTYPE html>" +:+ nl +:+
  "<html lang=" +:+ dquote +:+ "ru" +:+ dquote +:+ ">" +:+ nl +:+
  "<head>" +:+ nl +:+
  "    <meta charset=" +:+ dquote +:+ "UTF-8" +:+ dquote +:+ ">" +:+ nl +:+
  "    <meta name=" +:+ dquote +:+ "viewport" +:+ dquote +:+ " content=" +:+
    dquote +:+ "width=device-width, initial-scale=1.0" +:+ dquote +:+ ">" +:+ nl +:+
  "    <title>" +:+ title +:+ "</title>" +:+ nl +:+
  "    <style>" +:+ nl +:+
  "        body {" +:+ nl +:+
  "            font-family: -apple-system, BlinkMacSystemFont, " +:+ dquote +:+
    "Segoe UI" +:+ dquote +:+ ", Roboto, Helvetica, Arial, sans-serif;" +:+ nl +:+
  "            line-height: 1.6;" +:+ nl +:+
  "            color: #333;" +:+ nl +:+
  "            max-width: 800px;" +:+ nl +:+
  "            margin: 0 auto;" +:+ nl +:+
  "            padding: 40px 20px;" +:+ nl +:+
  "        }" +:+ nl +:+
  "        h1, h2, h3 { color: #2c3e50; margin-top: 1.5em; }" +:+ nl +:+
  "        code { background: #f4f4f4; padding: 2px 5px; border-radius: 4px; }" +:+ nl +:+
  "        pre { background: #f4f4f4; padding: 15px; border-radius: 8px; overflow-x: auto; }" +:+ nl +:+
  "        blockquote { border-left: 4px solid #6c63ff; margin-left: 0; padding-left: 15px; color: #555; }" +:+ nl +:+
  "    </style>" +:+ nl +:+
  "    <script src=" +:+ dquote +:+
    "https://cdn.jsdelivr.net/npm/marked/marked.min.js" +:+ dquote +:+
    "></script>" +:+ nl +:+
  "</head>" +:+ nl +:+
  "<body>" +:+ nl +:+
  "    <div id=" +:+ dquote +:+ "content" +:+ dquote +:+
    ">Загрузка контента...</div>" +:+ nl +:+
  "    <script>" +:+ nl +:+
  "        const rawMarkdown = `".

(** The template from the closing backtick on. *)
Definition html_tail : string :=
  "`;" +:+ nl +:+
  "        document.getElementById('content').innerHTML = marked.parse(rawMarkdown);" +:+ nl +:+
  "    </script>" +:+ nl +:+
  "</body>" +:+ nl +:+
  "</html>".

Definition create_html_export (markdown_text title : string) : string :=
  html_head title +:+ safe_md markdown_text +:+ html_tail.

(** Modelled from the spec: what the viewer's JavaScript engine reads from
    the text that follows the opening backtick of an untagged template
    literal without substitutions (ECMAScript, template literal lexical
    components): the cooked string value and the text after the closing
    backtick.  A backslash introduces an escape, a carriage return is read
    as a line feed, and the literal ends at the first unescaped backtick.
    [None] stands for a literal that is not a plain string: unterminated, a
    substitution, or a numeric escape, which this reading does not decode. *)
Definition js_escape (c : ascii) : option string :=
  let one (a : ascii) := Some (String a EmptyString) in
  if Ascii.eqb c "n" then one "010"%char
  else if Ascii.eqb c "t" then one "009"%char
  else if Ascii.eqb c "r" then one "013"%char
  else if Ascii.eqb c "b" then one "008"%char
  else if Ascii.eqb c "f" then one "012"%char
  else if Ascii.eqb c "v" then one "011"%char
  else if Ascii.eqb c "010" || Ascii.eqb c "013" then Some EmptyString
  else if Ascii.eqb c "x" || Ascii.eqb c "u" then None
  else if (48 <=? nat_of_ascii c) && (nat_of_ascii c <=? 57) then None
  else one c.

Fixpoint js_template_value (s : string) : option (string * string) :=
  let cons (v : string) (r : option (string * string)) :=
    (fun '(cooked, rest) => (v +:+ cooked, rest)) <$> r in
  match s with
  | EmptyString => None
  | String a s' =>
      if Ascii.eqb a backtick then Some (EmptyString, s')
      else if Ascii.eqb a backslash then
        match s' with
        | EmptyString => None
        | String c s'' =>
            match js_escape c with
            | Some v => cons v (js_template_value s'')
            | None => None
            end
        end
      else if Ascii.eqb a dollar then
        match s' with
        | String "{" _ => None
        | _ => cons (String a EmptyString) (js_template_value s')
        end
      else if Ascii.eqb a "013" then
        match s' with
        | String "010" s'' => cons nl (js_template_value s'')
        | _ => cons nl (js_template_value s')
        end
      else cons (String a EmptyString) (js_template_value s')
  end.

(** ** The extractor as the specification words it *)

Fixpoint find_first (c : ascii) (s : string) : option nat :=
  match s with
  | EmptyString => None
  | String a s' => if Ascii.eqb a c then Some 0 else S <$> find_first c s'
  end.

Fixpoint find_last (c : ascii) (s : string) : option nat :=
  match s with
  | EmptyString => None
  | String a s' =>
      match find_last c s' with
      | Some j => Some (S j)
      | None => if Ascii.eqb a c then Some 0 else None
      end
  end.

(** "A [[] followed later by a []]": the first opening bracket stands
    before the last closing one. *)
Definition bracket_pair (text : string) : option (nat * nat) :=
  match find_first "[" text, find_last "]" text with
  | Some i, Some j => if i <? j then Some (i, j) else None
  | _, _ => None
  end.

(** "The substring spanning the first [[] to the last []]; if no bracket
    pair is found, the original text unchanged." *)
Definition bracket_span (text : string) : string :=
  match bracket_pair text with
  | Some (i, j) => String.substring i (j - i + 1) text
  | None => text
  end.

(** Character-freeness of a text, for the statements about the converter
    and the exporter. *)
Fixpoint free_of (c : ascii) (s : string) : bool :=
  match s with
  | EmptyString => true
  | String a s' => negb (Ascii.eqb a c) && free_of c s'
  end.

(** ** Observations on a call *)

(** The temperature and the model carried by the requests a generator
    sends, and the model of the client that sends them. *)
Definition sent_temperatures (g : generator) : list value :=
  (fun r => temperature (snd r)) <$> requests g.

Definition sent_models (g : generator) : list value :=
  (fun r => chat_model (snd r)) <$> requests g.

Definition client_models (g : generator) : list value :=
  (fun r => model (fst r)) <$> requests g.

Definition credentials_missing_error : exn :=
  Exn ValueError "Не настроены ключи доступа GigaChat." None.

(** The credential the client resolves from secrets it could read: the
    secret, else the environment. *)
Definition resolved_credentials (w : world) : value :=
  py_or (dict_get (default ∅ (secrets w !! "gigachat")) "credentials")
        (getenv w "GIGACHAT_CREDENTIALS").

(** ** [pdf_maker.generate_pdf]: the story and the render pass

    The list of flowables [generate_pdf] builds from the title and the
    sections (the loop over [sections] and the lines of each of them) and
    hands to [doc.build]. *)

(** [str.isspace] on the characters that fit one byte of UTF-8: U+0009 to
    U+000D, U+001C to U+001F and the space. *)
Definition is_space_byte (a : ascii) : bool :=
  let n := nat_of_ascii a in
  ((9 <=? n) && (n <=? 13)) || ((28 <=? n) && (n <=? 32)).

(** The whitespace characters of two bytes: U+0085 and U+00A0. *)
Definition is_space_2 (a b : ascii) : bool :=
  (nat_of_ascii a =? 194) &&
  ((nat_of_ascii b =? 133) || (nat_of_ascii b =? 160)).

(** The whitespace characters of three bytes: U+1680, U+2000 to U+200A,
    U+2028, U+2029, U+202F, U+205F and U+3000. *)
Definition is_space_3 (a b c : ascii) : bool :=
  let x := nat_of_ascii a in
  let y := nat_of_ascii b in
  let z := nat_of_ascii c in
  ((x =? 225) && (y =? 154) && (z =? 128)) ||
  ((x =? 226) && (y =? 128) &&
   (((128 <=? z) && (z <=? 138)) || (z =? 168) || (z =? 169) || (z =? 175))) ||
  ((x =? 226) && (y =? 129) && (z =? 159)) ||
  ((x =? 227) && (y =? 128) && (z =? 128)).

(** [s.lstrip()] *)
Fixpoint lstrip (s : string) : string :=
  match s with
  | EmptyString => EmptyString
  | String a s1 =>
      if is_space_byte a then lstrip s1
      else
        match s1 with
        | EmptyString => s
        | String b s2 =>
            if is_space_2 a b then lstrip s2
            else
              match s2 with
              | EmptyString => s
              | String c s3 => if is_space_3 a b c then lstrip s3 else s
              end
        end
  end.

(** A text of whitespace only. *)
Definition blank (s : string) : bool := String.eqb (lstrip s) EmptyString.

(** [s.rstrip()]: the longest suffix of whitespace is dropped. *)
Fixpoint rstrip (s : string) : string :=
  match s with
  | EmptyString => EmptyString
  | String a s' => if blank s then EmptyString else String a (rstrip s')
  end.

(** [s.strip()] *)
Definition strip (s : string) : string := rstrip (lstrip s).

(** [s.lstrip('#')], for any one character *)
Fixpoint lstrip_char (c : ascii) (s : string) : string :=
  match s with
  | EmptyString => EmptyString
  | String a s' => if Ascii.eqb a c then lstrip_char c s' else s
  end.

(** [s.split(sep)] for a one-character separator *)
Fixpoint split_on (sep : ascii) (s : string) : list string :=
  match s with
  | EmptyString => [EmptyString]
  | String a s' =>
      if Ascii.eqb a sep then EmptyString :: split_on sep s'
      else
        match split_on sep s' with
        | line :: lines => String a line :: lines
        | [] => [String a EmptyString]
        end
  end.

Inductive text_alignment : Type := TA_LEFT | TA_CENTER | TA_JUSTIFY.

(** [ParagraphStyle(name, parent=..., fontName=..., ...)], with the
    attributes [generate_pdf] sets. *)
Record ParagraphStyle : Type := {
  style_name : string;
  parent : string;
  fontName : string;
  fontSize : nat;
  spaceBefore : option nat;
  spaceAfter : nat;
  leading : option nat;
  alignment : text_alignment
}.

Definition CustomTitle (fonts : pdf_styles) : ParagraphStyle :=
  {| style_name := "CustomTitle"; parent := "Title";
     fontName := title_style fonts; fontSize := 18;
     spaceBefore := None; spaceAfter := 20; leading := None;
     alignment := TA_CENTER |}.

Definition CustomH2 (fonts : pdf_styles) : ParagraphStyle :=
  {| style_name := "CustomH2"; parent := "Heading2";
     fontName := h2_style fonts; fontSize := 14;
     spaceBefore := Some 15; spaceAfter := 10; leading := None;
     alignment := TA_LEFT |}.

Definition CustomBody (fonts : pdf_styles) : ParagraphStyle :=
  {| style_name := "CustomBody"; parent := "Normal";
     fontName := body_style fonts; fontSize := 11;
     spaceBefore := None; spaceAfter := 8; leading := Some 15;
     alignment := TA_JUSTIFY |}.

Inductive flowable : Type :=
  | Paragraph (text : string) (style : ParagraphStyle)
  | Spacer (width height : nat).

(** ReportLab, as far as [generate_pdf] calls it.  Building
    [Paragraph(text, style)] parses the markup of the text and resolves
    the fonts of the style, and raises on what it does not accept;
    [doc.build(story)] lays the story out and writes the bytes of the
    document, or raises.  Both read the fonts registered in the process. *)
Class ReportLab : Type := {
  paragraph_error : font_state -> string -> ParagraphStyle -> option exn;
  doc_build : font_state -> list flowable -> result string
}.

(** [Paragraph(text, style)] *)
Definition new_paragraph `{ReportLab} (st : font_state) (text : string)
    (style : ParagraphStyle) : result flowable :=
  match paragraph_error st text style with
  | Some e => raise e
  | None => inr (Paragraph text style)
  end.

(** The body of the inner loop, for one line of a section. *)
Definition line_flowables `{ReportLab} (st : font_state) (fonts : pdf_styles)
    (para : string) : result (list flowable) :=
  let para := strip para in
  if String.eqb para EmptyString then inr []
  else if String.prefix "##" para then
    f <- new_paragraph st (_md_to_html_tags (strip (lstrip_char "#" para)))
           (CustomH2 fonts) ;;
    inr [f]
  else if String.prefix "#" para then
    f <- new_paragraph st (_md_to_html_tags (strip (lstrip_char "#" para)))
           (CustomTitle fonts) ;;
    inr [f]
  else
    f <- new_paragraph st (_md_to_html_tags para) (CustomBody fonts) ;;
    inr [f].

(** The inner loop, over the lines of a section: the first paragraph that
    cannot be built ends it. *)
Fixpoint lines_flowables `{ReportLab} (st : font_state) (fonts : pdf_styles)
    (paragraphs : list string) : result (list flowable) :=
  match paragraphs with
  | [] => inr []
  | para :: rest =>
      fs <- line_flowables st fonts para ;;
      more <- lines_flowables st fonts rest ;;
      inr (fs ++ more)
  end.

(** The body of the outer loop, for one section. *)
Definition section_flowables `{ReportLab} (st : font_state) (fonts : pdf_styles)
    (section : string) : result (list flowable) :=
  let paragraphs := split_on Re.newline section in
  fs <- lines_flowables st fonts paragraphs ;;
  inr (fs ++ [Spacer 1 15]).

Fixpoint sections_flowables `{ReportLab} (st : font_state) (fonts : pdf_styles)
    (sections : list string) : result (list flowable) :=
  match sections with
  | [] => inr []
  | section :: rest =>
      fs <- section_flowables st fonts section ;;
      more <- sections_flowables st fonts rest ;;
      inr (fs ++ more)
  end.

Definition story `{ReportLab} (st : font_state) (fonts : pdf_styles)
    (title : string) (sections : list string) : result (list flowable) :=
  let clean_title := strip (replace_char "#" EmptyString (_md_to_html_tags title)) in
  f <- new_paragraph st clean_title (CustomTitle fonts) ;;
  body <- sections_flowables st fonts sections ;;
  inr (f :: body).

(** [generate_pdf]: the font setup, the styles, the story, the render pass
    into the buffer, and the bytes of the buffer. *)
Definition generate_pdf `{ReportLab} (title : string) (sections : list string)
    (w : world) (st : font_state) : result (font_state * string) :=
  st <- _setup_fonts w st ;;
  let fonts := style_fonts w in
  flowables <- story st fonts title sections ;;
  pdf_bytes <- doc_build st flowables ;;
  inr (st, pdf_bytes).

(** The remote side that delivers the given chunks and ends. *)
Fixpoint chunks_then_end (cs : list ChatChunk) : response_stream :=
  match cs with
  | [] => EndOfStream
  | c :: cs' => Chunk c (chunks_then_end cs')
  end.

(** The content of the first choice of a chunk, empty when there is none. *)
Definition first_delta (c : ChatChunk) : string :=
  match choices c with
  | [] => EmptyString
  | ch :: _ => default EmptyString (delta_content ch)
  end.

Definition is_spacer (f : flowable) : bool :=
  match f with
  | Spacer _ _ => true
  | Paragraph _ _ => false
  end.


(** ** Sample environments

    Concrete worlds, a fragment of [str.format], a decoder for one sample
    response and a one-field item schema, for evaluating the services. *)

Definition text_chunk (s : string) : ChatChunk :=
  {| choices := [{| delta_content := Some s |}] |}.

Definition sample_files : gmap string string :=
  list_to_map
    [("assets/prompts/content_plan.txt", "Plan for {niche}, {period}, {channels}. {extra_context}");
     ("assets/prompts/broadcasts.txt", "Post for {channel} about {topic}, tone {tone}");
     ("assets/prompts/lead_magnets.txt", "A {lm_type} about {topic} for {audience}");
     ("assets/prompts/seo_articles.txt", "Article about {topic} with {target_keywords}");
     ("assets/fonts/Roboto-Regular.ttf", "")].

Definition sample_array_text : string :=
  "[{" +:+ dquote +:+ "topic" +:+ dquote +:+ ": " +:+ dquote +:+ "Launch" +:+ dquote +:+
  "}, {" +:+ dquote +:+ "topic" +:+ dquote +:+ ": " +:+ dquote +:+ "Review" +:+ dquote +:+ "}]".

(** The remote side of the samples: three chunks, the middle one without
    choices, carrying a JSON array between two phrases. *)
Definition sample_reply : response_stream :=
  Chunk (text_chunk "Here is the plan: ")
    (Chunk {| choices := [] |}
       (Chunk (text_chunk sample_array_text)
          (Chunk (text_chunk " Good luck!") EndOfStream))).

Definition sample_world : world :=
  {| session_state := ∅;
     secrets_failure := None;
     secrets := {["gigachat" := {["credentials" := VStr "c2VjcmV0"]}]};
     environ := ∅;
     files := sample_files;
     giga_stream := fun _ _ => sample_reply |}.

(** As [sample_world], with a default model configured in the secrets. *)
Definition configured_model_world : world :=
  {| session_state := ∅;
     secrets_failure := None;
     secrets := {["gigachat" := {["credentials" := VStr "c2VjcmV0";
                                   "model" := VStr "GigaChat-Pro"]}]};
     environ := ∅;
     files := sample_files;
     giga_stream := fun _ _ => sample_reply |}.

(** No credential in the secrets or in the environment. *)
Definition no_credentials_world : world :=
  {| session_state := ∅;
     secrets_failure := None;
     secrets := ∅;
     environ := ∅;
     files := sample_files;
     giga_stream := fun _ _ => sample_reply |}.

(** No secrets file at all, and a credential in the environment. *)
Definition no_secrets_file_world : world :=
  {| session_state := ∅;
     secrets_failure :=
       Some (Exn StreamlitSecretNotFoundError "No secrets found." None);
     secrets := ∅;
     environ := {["GIGACHAT_CREDENTIALS" := "ZW52"]};
     files := sample_files;
     giga_stream := fun _ _ => sample_reply |}.

(** As [sample_world], without the template of the broadcast posts. *)
Definition no_broadcast_template_world : world :=
  {| session_state := ∅;
     secrets_failure := None;
     secrets := {["gigachat" := {["credentials" := VStr "c2VjcmV0"]}]};
     environ := ∅;
     files := delete "assets/prompts/broadcasts.txt" sample_files;
     giga_stream := fun _ _ => sample_reply |}.

(** Credentials present, the connection drops after the first chunk. *)
Definition broken_transport_world : world :=
  {| session_state := ∅;
     secrets_failure := None;
     secrets := {["gigachat" := {["credentials" := VStr "c2VjcmV0"]}]};
     environ := ∅;
     files := sample_files;
     giga_stream := fun _ _ =>
       Chunk (text_chunk "Here") (Fails (Exn SdkError "connection reset" None)) |}.

(** The fonts directory after the regular font file has been removed. *)
Definition no_fonts_world : world :=
  {| session_state := ∅;
     secrets_failure := None;
     secrets := ∅;
     environ := ∅;
     files := ∅;
     giga_stream := fun _ _ => EndOfStream |}.

(** A model and a temperature chosen in the session, other models in the
    secrets and in the environment. *)
Definition session_world : world :=
  {| session_state := {["llm_model" := VStr "GigaChat-2-Lite";
                        "llm_temperature" := VFloat 0.2%float]};
     secrets_failure := None;
     secrets := {["gigachat" := {["credentials" := VStr "c2VjcmV0";
                                   "model" := VStr "GigaChat-Pro"]}]};
     environ := {["GIGACHAT_MODEL" := "GigaChat-2"]};
     files := sample_files;
     giga_stream := fun _ _ => sample_reply |}.

(** Credentials in the environment only, and a CA bundle configured whose
    file is not there. *)
Definition bundle_world : world :=
  {| session_state := ∅;
     secrets_failure := None;
     secrets := {["gigachat" := {["credentials" := VStr "";
                                   "ca_bundle_file" := VStr "certs/russian_trusted_root_ca.cer"]}]};
     environ := {["GIGACHAT_CREDENTIALS" := "ZW52"]};
     files := sample_files;
     giga_stream := fun _ _ => sample_reply |}.


Definition count_spacers (fs : list flowable) : nat :=
  length (List.filter is_spacer fs).

(** A decoded document that is neither a list nor a mapping. *)
Definition json_scalar (j : json) : bool :=
  match j with
  | JArray _ | JObject _ => false
  | _ => true
  end.

(** The model answers in prose, without any JSON. *)
Definition prose_world : world :=
  {| session_state := ∅;
     secrets_failure := None;
     secrets := {["gigachat" := {["credentials" := VStr "c2VjcmV0"]}]};
     environ := ∅;
     files := sample_files;
     giga_stream := fun _ _ =>
       Chunk (text_chunk "I cannot ") (Chunk (text_chunk "help with that.") EndOfStream) |}.

(** The model answers with a bare number. *)
Definition number_world : world :=
  {| session_state := ∅;
     secrets_failure := None;
     secrets := {["gigachat" := {["credentials" := VStr "c2VjcmV0"]}]};
     environ := ∅;
     files := sample_files;
     giga_stream := fun _ _ => Chunk (text_chunk "42") EndOfStream |}.

(** The font state of a process that has set its fonts up in
    [sample_world], where only the regular font file exists. *)
Definition regular_only_fonts : font_state :=
  match _setup_fonts sample_world fresh_fonts with
  | inr st => st
  | inl _ => fresh_fonts
  end.

(** A check of the nesting of [<b>] and [<i>] tags, for the sample renderer:
    [open] holds the tags still to be closed, innermost first. *)
Fixpoint tags_nest (s : string) (open : list ascii) : bool :=
  match s with
  | EmptyString => match open with [] => true | _ => false end
  | String _ s' =>
      if String.prefix "<b>" s then tags_nest s' ("b"%char :: open)
      else if String.prefix "<i>" s then tags_nest s' ("i"%char :: open)
      else if String.prefix "</b>" s then
        match open with
        | t :: open' => Ascii.eqb t "b" && tags_nest s' open'
        | [] => false
        end
      else if String.prefix "</i>" s then
        match open with
        | t :: open' => Ascii.eqb t "i" && tags_nest s' open'
        | [] => false
        end
      else tags_nest s' open
  end.

Definition flowable_text (f : flowable) : string :=
  match f with
  | Paragraph text _ => text
  | Spacer _ _ => EmptyString
  end.

(** A renderer for the samples: a paragraph needs the font of its style
    registered and its bold and italic tags properly nested; the document
    is a header followed by the texts of the paragraphs. *)
Definition sample_reportlab : ReportLab :=
  {| paragraph_error := fun st text style =>
       if negb (bool_decide (fontName style ∈ registered st)) then
         Some (Exn ValueError
                 ("Can't map determine family/bold/italic for " +:+ fontName style) None)
       else if negb (tags_nest text []) then
         Some (Exn ValueError ("Parse error: saw </b> instead of expected </i>") None)
       else None;
     doc_build := fun _ story =>
       inr ("%PDF-1.4" +:+ nl +:+
            fold_right (fun f out => flowable_text f +:+ nl +:+ out) EmptyString story) |}.

Fixpoint lookup_kw (k : string) (kw : list (string * string)) : option string :=
  match kw with
  | [] => None
  | (k', v) :: kw' => if String.eqb k' k then Some v else lookup_kw k kw'
  end.

(** [str.format] on templates whose replacement fields are plain names:
    [field] holds the name being read inside braces. *)
Fixpoint sample_format_from (kw : list (string * string)) (s : string)
    (field : option string) : result string :=
  match s, field with
  | EmptyString, None => inr EmptyString
  | EmptyString, Some _ =>
      raise (Exn ValueError "expected '}' before end of string" None)
  | String a s', None =>
      if Ascii.eqb a "{" then sample_format_from kw s' (Some EmptyString)
      else r <- sample_format_from kw s' None ;; inr (String a r)
  | String a s', Some name =>
      if Ascii.eqb a "}" then
        match lookup_kw name kw with
        | Some v => r <- sample_format_from kw s' None ;; inr (v +:+ r)
        | None => raise (Exn KeyError name None)
        end
      else sample_format_from kw s' (Some (name +:+ String a EmptyString))
  end.

Definition sample_json_loads (s : string) : result json :=
  if String.eqb s sample_array_text then
    inr (JArray [JObject [("topic", JString "Launch")];
                 JObject [("topic", JString "Review")]])
  else raise (Exn JSONDecodeError "Expecting value: line 1 column 1 (char 0)" None).

Definition sample_library : Library :=
  {| str_format := fun tpl kw => sample_format_from kw tpl None;
     json_loads := sample_json_loads |}.

(** As [sample_library], decoding the number 42 as well. *)
Definition number_library : Library :=
  {| str_format := fun tpl kw => sample_format_from kw tpl None;
     json_loads := fun s =>
       if String.eqb s "42" then inr (JNumber "42") else sample_json_loads s |}.

(** A schema with the single required string field [topic]. *)
Definition sample_schema : Schema :=
  {| ContentPlanItem := string;
     validate_item := fun j =>
       match j with
       | JObject ms =>
           match member "topic" ms with
           | Some (JString t) => inr t
           | Some _ => inl "topic: Input should be a valid string"
           | None => inl "topic: Field required"
           end
       | _ => inl "Input should be a valid dictionary"
       end |}.

(** * Properties *)

(** ** The regular-expression engine on the three patterns *)

Lemma append_nil (s : string) : EmptyString +:+ s = s.
Proof. reflexivity. Qed.

Lemma append_cons (a : ascii) (s t : string) : String a s +:+ t = String a (s +:+ t).
Proof. reflexivity. Qed.

Lemma append_assoc (a b c : string) : (a +:+ b) +:+ c = a +:+ (b +:+ c).
Proof.
  induction a as [|x a IH]; [reflexivity|].
  rewrite !append_cons. now rewrite IH.
Qed.

Lemma length_append (a b : string) :
  String.length (a +:+ b) = String.length a + String.length b.
Proof.
  induction a as [|x a IH]; [reflexivity|].
  rewrite append_cons. cbn [String.length]. now rewrite IH.
Qed.

(** Unfold [+:+] on texts that start with known characters. *)
Ltac str := rewrite ?append_cons, ?append_nil.

Section Engine.

Lemma match_here_star_greedy (dotall : bool) (p : list Re.atom) (a : ascii) (s : string) :
  Re.match_here (Re.AnyStar true dotall :: p) (String a s) =
  if Re.dot dotall a then
    match Re.match_here (Re.AnyStar true dotall :: p) s with
    | Some r => Some (Re.take a r)
    | None => Re.match_here p (String a s)
    end
  else Re.match_here p (String a s).
Proof. reflexivity. Qed.

Lemma match_here_star_lazy (dotall : bool) (p : list Re.atom) (s : string) :
  Re.match_here (Re.AnyStar false dotall :: p) s =
  match Re.match_here p s with
  | Some r => Some r
  | None =>
      match s with
      | String a s' =>
          if Re.dot dotall a
          then Re.take a <$> Re.match_here (Re.AnyStar false dotall :: p) s'
          else None
      | EmptyString => None
      end
  end.
Proof. destruct s; reflexivity. Qed.

Lemma match_here_chr (c : ascii) (p : list Re.atom) (a : ascii) (s : string) :
  Re.match_here (Re.Chr c :: p) (String a s) =
  if Ascii.eqb a c then Re.step a <$> Re.match_here p s else None.
Proof. reflexivity. Qed.

(** The greedy star followed by the closing bracket runs to the last
    closing bracket of the text. *)
Lemma greedy_to_last (s : string) :
  Re.match_here [Re.AnyStar true true; Re.Chr "]"] s =
  match find_last "]" s with
  | Some j => Some (S j, String.substring 0 j s)
  | None => None
  end.
Proof.
  induction s as [|a s IH].
  - reflexivity.
  - rewrite match_here_star_greedy, IH. cbn [Re.dot orb find_last].
    destruct (find_last "]" s) as [j|].
    + reflexivity.
    + rewrite match_here_chr. destruct (Ascii.eqb a "]"); reflexivity.
Qed.

Lemma array_pattern_at (s : string) :
  Re.match_here json_array_pattern s =
  match s with
  | String a s' =>
      if Ascii.eqb a "[" then
        match find_last "]" s' with
        | Some j => Some (S (S j), String.substring 0 j s')
        | None => None
        end
      else None
  | EmptyString => None
  end.
Proof.
  destruct s as [|a s]; [reflexivity|].
  unfold json_array_pattern. rewrite match_here_chr, greedy_to_last.
  destruct (Ascii.eqb a "["); [|reflexivity].
  destruct (find_last "]" s); reflexivity.
Qed.

Lemma search_without_closing (s : string) :
  find_last "]" s = None -> Re.search json_array_pattern s = None.
Proof.
  induction s as [|a s IH]; intros Hl.
  - reflexivity.
  - cbn [Re.search]. rewrite array_pattern_at.
    cbn [find_last] in Hl. destruct (find_last "]" s) as [j|]; [discriminate|].
    rewrite IH by reflexivity. destruct (Ascii.eqb a "["); reflexivity.
Qed.

(** [re.search] finds the bracket pair of the specification, and nothing
    when there is none. *)
Lemma search_bracket_pair (s : string) :
  (fun '(i, n, _) => (i, n)) <$> Re.search json_array_pattern s =
  (fun '(i, j) => (i, j - i + 1)) <$> bracket_pair s.
Proof.
  induction s as [|a s IH].
  - reflexivity.
  - cbn [Re.search]. rewrite array_pattern_at.
    unfold bracket_pair in *. cbn [find_first find_last].
    destruct (Ascii.eqb a "[") eqn:Ha.
    + destruct (find_last "]" s) as [j|] eqn:Hl.
      * cbn. do 2 f_equal. lia.
      * rewrite search_without_closing by assumption.
        apply Ascii.eqb_eq in Ha; subst a. reflexivity.
    + destruct (Re.search json_array_pattern s) as [[[i n] g]|] eqn:Hs;
        destruct (find_first "[" s) as [i'|] eqn:Hf;
        destruct (find_last "]" s) as [j'|] eqn:Hl;
        cbn [fmap option_fmap option_map] in IH |- *;
        try discriminate IH; try reflexivity.
      * change (S i' <? S j') with (i' <? j').
        destruct (i' <? j'); cbn [fmap option_fmap option_map] in IH |- *;
          [|discriminate IH].
        injection IH as -> ->. reflexivity.
      * change (S i' <? S j') with (i' <? j').
        destruct (i' <? j'); cbn [fmap option_fmap option_map] in IH |- *;
          [discriminate IH|reflexivity].
      * destruct (Ascii.eqb a "]"); reflexivity.
Qed.

End Engine.

(** ** The JSON extractor *)

Lemma find_first_app (c : ascii) (pre rest : string) :
  exists i, find_first c (pre +:+ String c rest) = Some i /\ i <= String.length pre.
Proof.
  induction pre as [|a pre [i [Hi Hle]]]; str; cbn [find_first String.length].
  - rewrite Ascii.eqb_refl. exists 0. split; [reflexivity|lia].
  - destruct (Ascii.eqb a c).
    + exists 0. split; [reflexivity|lia].
    + rewrite Hi. exists (S i). split; [reflexivity|lia].
Qed.

Lemma find_last_app (c : ascii) (pre rest : string) :
  exists j, find_last c (pre +:+ String c rest) = Some j /\ String.length pre <= j.
Proof.
  induction pre as [|a pre [j [Hj Hle]]]; str; cbn [find_last String.length].
  - destruct (find_last c rest) as [j|].
    + exists (S j). split; [reflexivity|lia].
    + rewrite Ascii.eqb_refl. exists 0. split; [reflexivity|lia].
  - rewrite Hj. exists (S j). split; [reflexivity|lia].
Qed.

(** A text with an opening bracket followed later by a closing one has a
    bracket pair in the sense of [bracket_pair]. *)
Lemma bracket_pair_found (pre mid post : string) :
  is_Some (bracket_pair (pre +:+ String "[" (mid +:+ String "]" post))).
Proof.
  unfold bracket_pair.
  destruct (find_first_app "[" pre (mid +:+ String "]" post)) as [i [-> Hi]].
  replace (pre +:+ String "[" (mid +:+ String "]" post))
    with ((pre +:+ String "[" mid) +:+ String "]" post).
  2:{ now rewrite append_assoc, append_cons. }
  destruct (find_last_app "]" (pre +:+ String "[" mid) post) as [j [-> Hj]].
  rewrite length_append in Hj. cbn [String.length] in Hj.
  assert ((i <? j) = true) as -> by (apply Nat.ltb_lt; lia).
  eexists; reflexivity.
Qed.

Lemma find_first_get (c : ascii) (s : string) (i : nat) :
  find_first c s = Some i -> String.get i s = Some c.
Proof.
  revert i. induction s as [|a s IH]; intros i; cbn [find_first]; [discriminate|].
  destruct (Ascii.eqb a c) eqn:Ha.
  - intros [= <-]. apply Ascii.eqb_eq in Ha. now subst a.
  - destruct (find_first c s) as [i'|]; [|discriminate].
    intros [= <-]. cbn [String.get]. now apply IH.
Qed.

Lemma find_last_get (c : ascii) (s : string) (j : nat) :
  find_last c s = Some j -> String.get j s = Some c.
Proof.
  revert j. induction s as [|a s IH]; intros j; cbn [find_last]; [discriminate|].
  destruct (find_last c s) as [j'|].
  - intros [= <-]. cbn [String.get]. now apply IH.
  - destruct (Ascii.eqb a c) eqn:Ha; [|discriminate].
    intros [= <-]. apply Ascii.eqb_eq in Ha. now subst a.
Qed.

(** Conversely, a bracket pair is an opening bracket with a closing one
    after it. *)
Lemma bracket_pair_sound (text : string) (i j : nat) :
  bracket_pair text = Some (i, j) ->
  i < j /\ String.get i text = Some "["%char /\ String.get j text = Some "]"%char.
Proof.
  unfold bracket_pair.
  destruct (find_first "[" text) as [i'|] eqn:Hf; [|discriminate].
  destruct (find_last "]" text) as [j'|] eqn:Hl; [|discriminate].
  destruct (i' <? j') eqn:Hlt; [|discriminate].
  intros [= <- <-]. apply Nat.ltb_lt in Hlt.
  auto using find_first_get, find_last_get.
Qed.

(** C2. For every text, [_extract_json_from_text] returns what the
    specification describes: the substring from the first opening bracket
    to the last closing bracket when the first stands before the last, and
    the text itself otherwise.  The extractor is a total function: it
    returns a string on every input and raises nothing. *)
Theorem extract_json_is_bracket_span (text : string) :
  _extract_json_from_text text = bracket_span text.
Proof.
  unfold _extract_json_from_text, bracket_span.
  pose proof (search_bracket_pair text) as H.
  destruct (Re.search json_array_pattern text) as [[[i n] g]|];
    destruct (bracket_pair text) as [[i' j']|];
    cbn [fmap option_fmap option_map] in H; try discriminate H.
  - injection H as -> ->. reflexivity.
  - reflexivity.
Qed.

(** ** The Markdown converter *)

Section Markdown.

Variable repl : string -> string.

Lemma sub_from_here (pat : list Re.atom) (a : ascii) (s : string) :
  Re.sub_from pat repl (String a s) 0 =
  match Re.match_here pat (String a s) with
  | Some (S n, g) => repl g +:+ Re.sub_from pat repl s n
  | Some (0, g) => repl g +:+ String a (Re.sub_from pat repl s 0)
  | None => String a (Re.sub_from pat repl s 0)
  end.
Proof. reflexivity. Qed.

(** Text without an asterisk is copied by a substitution whose pattern
    starts with one. *)
Lemma sub_copies_plain (p : list Re.atom) (pre s : string) :
  free_of "*" pre = true ->
  Re.sub_from (Re.Chr "*" :: p) repl (pre +:+ s) 0 =
  pre +:+ Re.sub_from (Re.Chr "*" :: p) repl s 0.
Proof.
  induction pre as [|a pre IH]; intros Hf; [reflexivity|].
  cbn [free_of] in Hf. apply andb_prop in Hf as [Ha Hf].
  str. rewrite sub_from_here, match_here_chr.
  destruct (Ascii.eqb a "*"); [discriminate Ha|].
  now rewrite IH.
Qed.

(** The characters of a match are passed over. *)
Lemma sub_skips (pat : list Re.atom) (u v : string) :
  Re.sub_from pat repl (u +:+ v) (String.length u) = Re.sub_from pat repl v 0.
Proof. induction u as [|a u IH]; [reflexivity|]. str. cbn. exact IH. Qed.

(** The lazy star stops at the first closing delimiter; on a text without
    asterisk or line break that is the end of the text. *)
Lemma lazy_to_delimiter (d : list Re.atom) (text rest : string) (n : nat) :
  free_of "*" text = true ->
  free_of Re.newline text = true ->
  Re.match_here (Re.Chr "*" :: d) rest = Some (n, EmptyString) ->
  Re.match_here (Re.AnyStar false false :: Re.Chr "*" :: d) (text +:+ rest) =
  Some (String.length text + n, text).
Proof.
  intros Hs Hn Hd. induction text as [|a text IH].
  - rewrite match_here_star_lazy. str. now rewrite Hd.
  - cbn [free_of] in Hs, Hn.
    apply andb_prop in Hs as [Ha Hs]. apply andb_prop in Hn as [Hb Hn].
    rewrite match_here_star_lazy. str.
    rewrite match_here_chr.
    destruct (Ascii.eqb a "*"); [discriminate Ha|].
    unfold Re.dot. cbn [orb]. rewrite Hb.
    rewrite (IH Hs Hn). reflexivity.
Qed.

End Markdown.

Lemma bold_matches_span (text post : string) :
  free_of "*" text = true ->
  free_of Re.newline text = true ->
  Re.match_here bold_pattern (String "*" (String "*" (text +:+ String "*" (String "*" post)))) =
  Some (String.length text + 4, text).
Proof.
  intros Hs Hn. unfold bold_pattern.
  rewrite 2 match_here_chr. cbn [Ascii.eqb Bool.eqb].
  rewrite (lazy_to_delimiter [Re.Chr "*"] text _ 2 Hs Hn) by reflexivity.
  unfold Re.step; cbn [fmap option_fmap option_map fst snd]. do 2 f_equal. lia.
Qed.

Lemma bold_sub_span (pre text post : string) :
  free_of "*" pre = true ->
  free_of "*" text = true ->
  free_of Re.newline text = true ->
  Re.sub bold_pattern bold_repl
    (pre +:+ String "*" (String "*" (text +:+ String "*" (String "*" post)))) =
  pre +:+ bold_repl text +:+ Re.sub bold_pattern bold_repl post.
Proof.
  intros Hp Hs Hn. unfold Re.sub, bold_pattern.
  rewrite sub_copies_plain by assumption. f_equal.
  fold bold_pattern. rewrite sub_from_here.
  rewrite (bold_matches_span text post Hs Hn).
  replace (String.length text + 4) with (S (String.length text + 3)) by lia.
  apply f_equal.
  replace (String "*" (text +:+ String "*" (String "*" post)))
    with ((String "*" (text +:+ "**")) +:+ post).
  2:{ str. f_equal. rewrite append_assoc. now str. }
  replace (String.length text + 3) with (String.length (String "*" (text +:+ "**"))).
  - apply sub_skips.
  - cbn [String.length]. rewrite length_append. cbn [String.length]. lia.
Qed.

Lemma free_of_append (c : ascii) (a b : string) :
  free_of c a = true -> free_of c b = true -> free_of c (a +:+ b) = true.
Proof.
  intros Ha Hb. induction a as [|x a IH]; [exact Hb|].
  rewrite append_cons. cbn [free_of] in Ha |- *.
  apply andb_prop in Ha as [-> Ha]. now rewrite IH.
Qed.

Lemma italic_sub_plain (p s : string) :
  free_of "*" p = true ->
  Re.sub italic_pattern italic_repl (p +:+ s) =
  p +:+ Re.sub italic_pattern italic_repl s.
Proof. intros Hp. unfold Re.sub, italic_pattern. now apply sub_copies_plain. Qed.

Example md_triple_star : _md_to_html_tags "***a***" = "<b><i>a</b></i>".
Proof. reflexivity. Qed.

Example md_italic_around_bold :
  _md_to_html_tags "*a **b** c*" = "<i>a <b>b</b> c</i>".
Proof. reflexivity. Qed.

Example md_open_bold_before_span :
  _md_to_html_tags "**x **text** post" = "<b>x </b>text<i></i> post".
Proof. reflexivity. Qed.

Example extract_prose :
  _extract_json_from_text "Plan: [1, [2], 3] done] ok [" = "[1, [2], 3] done]".
Proof. reflexivity. Qed.

Example extract_reversed : _extract_json_from_text "] then [" = "] then [".
Proof. reflexivity. Qed.

Example extract_late_pair : _extract_json_from_text "x]y[z]" = "[z]".
Proof. reflexivity. Qed.

(** C7, as amended. The converter maps the sample of the specification as
    stated, and it runs the bold substitution before the italic one: a
    span [**text**] whose text has no asterisk and no line break, standing
    after text without asterisks, is converted whole to [<b>text</b>], and
    what follows the span is converted on its own. *)
Theorem md_bold_before_italic (pre text post : string) :
  free_of "*" pre = true ->
  free_of "*" text = true ->
  free_of Re.newline text = true ->
  _md_to_html_tags "**bold** and *italic*" = "<b>bold</b> and <i>italic</i>" /\
  _md_to_html_tags (pre +:+ "**" +:+ text +:+ "**" +:+ post) =
  pre +:+ "<b>" +:+ text +:+ "</b>" +:+ _md_to_html_tags post.
Proof.
  intros Hp Hs Hn. split; [reflexivity|].
  unfold _md_to_html_tags. str.
  rewrite (bold_sub_span pre text post Hp Hs Hn).
  unfold bold_repl.
  transitivity (Re.sub italic_pattern italic_repl
                  ((pre +:+ "<b>" +:+ text +:+ "</b>") +:+
                   Re.sub bold_pattern (fun g => "<b>" +:+ g +:+ "</b>") post)).
  { apply f_equal. rewrite !append_assoc. now str. }
  rewrite italic_sub_plain.
  - rewrite !append_assoc. now str.
  - repeat apply free_of_append; try assumption; reflexivity.
Qed.

Lemma md_bold_before_italic_witness :
  _md_to_html_tags "**bold** and *italic*" = "<b>bold</b> and <i>italic</i>" /\
  _md_to_html_tags ("Read " +:+ "**" +:+ "this" +:+ "**" +:+ " and *that*") =
  "Read " +:+ "<b>" +:+ "this" +:+ "</b>" +:+ _md_to_html_tags " and *that*".
Proof.
  apply (md_bold_before_italic "Read " "this" " and *that*"); reflexivity.
Defined.

(** C7 as stated fails: a bold span whose text runs over a line break is
    not matched by the bold rule, and the italic rule then matches each
    pair of asterisks. *)
Lemma md_bold_span_over_line_break :
  free_of "*" ("a" +:+ nl +:+ "b") = true /\
  _md_to_html_tags ("**" +:+ ("a" +:+ nl +:+ "b") +:+ "**") =
    "<i></i>" +:+ ("a" +:+ nl +:+ "b") +:+ "<i></i>" /\
  _md_to_html_tags ("**" +:+ ("a" +:+ nl +:+ "b") +:+ "**") <>
    "<b>" +:+ ("a" +:+ nl +:+ "b") +:+ "</b>".
Proof.
  split; [reflexivity|]. split; [reflexivity|].
  intros H. vm_compute in H. discriminate H.
Qed.

(** ** The model client *)

Lemma forward_sends_nothing (r : response_stream) : requests (forward r) = [].
Proof.
  induction r as [c r IH| |e]; cbn; [|reflexivity..].
  destruct (chunk_text c); exact IH.
Qed.

(** Draining a generator gives its fragments, unless it raises. *)
Lemma py_list_drains (g : generator) :
  py_list g =
  match raised g with
  | Some e => inl e
  | None => inr (fragments g)
  end.
Proof.
  induction g as [giga chat k IH|s k IH| |e]; cbn; try reflexivity.
  - exact IH.
  - rewrite IH. destruct (raised k); reflexivity.
Qed.

(** ["".join] is the concatenation of the list, in its order. *)
Lemma join_empty_concatenates (l : list string) :
  join_empty l = fold_right String.append EmptyString l.
Proof. induction l as [|s l IH]; [reflexivity|]. cbn. now rewrite IH. Qed.

(** C1. [generate_sync] is the drained stream: when [generate_stream]
    runs to its end for the same prompt, temperature and world (the
    transport included), [generate_sync] returns the concatenation of its
    fragments in the order they were yielded; when the stream raises,
    [generate_sync] raises the same exception.  It has no path of its
    own. *)
Theorem generate_sync_is_drained_stream (p : string) (t : value) (w : world) :
  generate_sync p t w =
  match raised (generate_stream p t w) with
  | Some e => inl e
  | None =>
      inr (fold_right String.append EmptyString (fragments (generate_stream p t w)))
  end.
Proof.
  unfold generate_sync. rewrite py_list_drains.
  destruct (raised (generate_stream p t w)); [reflexivity|].
  cbn [bind]. now rewrite join_empty_concatenates.
Qed.

Example sync_sample :
  generate_sync "hi" VNone sample_world =
  inr ("Here is the plan: " +:+ sample_array_text +:+ " Good luck!").
Proof. vm_compute. reflexivity. Qed.

Example stream_broken_transport :
  fragments (generate_stream "hi" VNone broken_transport_world) = ["Here"] /\
  generate_sync "hi" VNone broken_transport_world =
  inl (wrap_transport (Exn SdkError "connection reset" None)).
Proof. split; vm_compute; reflexivity. Qed.

Lemma generate_stream_requests (p : string) (t : value) (w : world) (giga : GigaChat) :
  _get_gigachat_client w = inr giga ->
  requests (generate_stream p t w) =
  [(giga,
    {| messages := [{| role := USER; content := p |}];
       temperature :=
         py_or t (dict_get_default (session_state w) "llm_temperature"
                    (VFloat DEFAULT_TEMPERATURE));
       max_tokens := DEFAULT_MAX_TOKENS;
       chat_model :=
         dict_get_default (session_state w) "llm_model" (VStr "GigaChat-2-Max") |})].
Proof.
  intros Hc. unfold generate_stream. rewrite Hc. cbn [requests].
  now rewrite forward_sends_nothing.
Qed.



(** C4, evaluated where it fails. With no model chosen in the session and
    the model [GigaChat-Pro] configured in the secrets, the layered lookup
    of [_get_gigachat_client] resolves [GigaChat-Pro] and configures the
    client with it, but the chat request [generate_stream] sends carries
    the literal [GigaChat-2-Max]: its own lookup knows the session and the
    literal only. *)
Theorem configured_model_not_sent :
  client_model configured_model_world = VStr "GigaChat-Pro" /\
  client_models (generate_stream "hi" VNone configured_model_world) =
    [VStr "GigaChat-Pro"] /\
  sent_models (generate_stream "hi" VNone configured_model_world) =
    [VStr "GigaChat-2-Max"].
Proof. repeat split; vm_compute; reflexivity. Qed.

(** The model of the request never depends on the secrets or on the
    environment. *)
Lemma sent_model_is_session_or_literal (p : string) (t : value) (w : world) (giga : GigaChat) :
  _get_gigachat_client w = inr giga ->
  sent_models (generate_stream p t w) =
  [dict_get_default (session_state w) "llm_model" (VStr "GigaChat-2-Max")].
Proof.
  intros Hc. unfold sent_models. now rewrite (generate_stream_requests _ _ _ _ Hc).
Qed.

(** ** Missing credentials *)

(** C6, as amended. When no usable credential resolves, a generation call
    fails before any request is sent, and what the caller of
    [generate_stream] or [generate_sync] receives is the [RuntimeError] of
    the transport wrapping, not an error kind of its own.  Its cause is
    the [ValueError] of [_get_gigachat_client] when the secrets can be read
    and neither they nor the environment hold a usable credential; when
    there is no secrets file, its cause is the exception of [st.secrets]
    itself, and the environment is not consulted. *)
Theorem missing_credentials_wrapped (p : string) (t : value) (w : world) :
  match secrets_failure w with
  | Some _ => True
  | None => truthy (resolved_credentials w) = false
  end ->
  let cause :=
    match secrets_failure w with
    | Some e => e
    | None => credentials_missing_error
    end in
  _get_gigachat_client w = inl cause /\
  requests (generate_stream p t w) = [] /\
  fragments (generate_stream p t w) = [] /\
  generate_sync p t w = inl (wrap_transport cause) /\
  exn_kind_of (wrap_transport cause) = RuntimeError /\
  exn_cause (wrap_transport cause) = Some cause.
Proof.
  intros Hc cause.
  assert (_get_gigachat_client w = inl cause) as E.
  { unfold _get_gigachat_client, cause. destruct (secrets_failure w); [reflexivity|].
    fold (resolved_credentials w). now rewrite Hc. }
  unfold generate_sync, generate_stream. rewrite E. repeat split.
Qed.

Lemma missing_credentials_wrapped_witness :
  (_get_gigachat_client no_credentials_world = inl credentials_missing_error /\
   requests (generate_stream "hi" VNone no_credentials_world) = [] /\
   fragments (generate_stream "hi" VNone no_credentials_world) = [] /\
   generate_sync "hi" VNone no_credentials_world =
     inl (wrap_transport credentials_missing_error) /\
   exn_kind_of (wrap_transport credentials_missing_error) = RuntimeError /\
   exn_cause (wrap_transport credentials_missing_error) =
     Some credentials_missing_error) /\
  (_get_gigachat_client no_secrets_file_world =
     inl (Exn StreamlitSecretNotFoundError "No secrets found." None) /\
   requests (generate_stream "hi" VNone no_secrets_file_world) = [] /\
   fragments (generate_stream "hi" VNone no_secrets_file_world) = [] /\
   generate_sync "hi" VNone no_secrets_file_world =
     inl (wrap_transport (Exn StreamlitSecretNotFoundError "No secrets found." None)) /\
   exn_kind_of
     (wrap_transport (Exn StreamlitSecretNotFoundError "No secrets found." None)) =
     RuntimeError /\
   exn_cause
     (wrap_transport (Exn StreamlitSecretNotFoundError "No secrets found." None)) =
     Some (Exn StreamlitSecretNotFoundError "No secrets found." None)).
Proof.
  split.
  - apply (missing_credentials_wrapped "hi" VNone no_credentials_world).
    vm_compute. reflexivity.
  - apply (missing_credentials_wrapped "hi" VNone no_secrets_file_world).
    exact I.
Defined.

(** C6 as stated fails: without credentials the call does not fail with an
    error kind of its own; the exception that reaches the caller has the
    kind a dropped connection gives, not that of the credentials error. *)
Lemma missing_credentials_not_own_kind :
  exists e e',
    generate_sync "hi" VNone no_credentials_world = inl e /\
    generate_sync "hi" VNone broken_transport_world = inl e' /\
    exn_kind_of e = exn_kind_of e' /\
    exn_kind_of e <> exn_kind_of credentials_missing_error.
Proof.
  exists (wrap_transport credentials_missing_error),
         (wrap_transport (Exn SdkError "connection reset" None)).
  repeat split; try (vm_compute; reflexivity). discriminate.
Qed.

(** ** The content service *)

Section ContentService.

Context `{Library}.

(** A sequence of calls returns only if each of them does. *)
Lemma bind_inr {A B : Type} (r : result A) (f : A -> result B) (b : B) :
  bind r f = inr b -> exists a, r = inr a /\ f a = inr b.
Proof. destruct r as [e|a]; [discriminate|]. intros Hf. now exists a. Qed.

Lemma load_prompt_inr (name : string) (w : world) (tpl : string) :
  load_prompt name w = inr tpl ->
  files w !! (PROMPTS_DIR +:+ "/" +:+ name +:+ ".txt") = Some tpl.
Proof.
  unfold load_prompt. destruct (files w !! _); [|discriminate].
  now intros [= ->].
Qed.

(** What one stream function does with its template: the file is read,
    filled, and the prompt handed to [generate_stream]. *)
Lemma stream_call_returns (name : string) (kw : list (string * string))
    (temp : float) (w : world) (g : generator) :
  (tpl <- load_prompt name w ;; prompt <- str_format tpl kw ;;
   inr (generate_stream prompt (VFloat temp) w)) = inr g <->
  exists tpl prompt,
    files w !! (PROMPTS_DIR +:+ "/" +:+ name +:+ ".txt") = Some tpl /\
    str_format tpl kw = inr prompt /\
    g = generate_stream prompt (VFloat temp) w.
Proof.
  split.
  - intros Hg. apply bind_inr in Hg as [tpl [Ht Hg]].
    apply bind_inr in Hg as [prompt [Hp [= <-]]].
    apply load_prompt_inr in Ht. now exists tpl, prompt.
  - intros (tpl & prompt & Ht & Hp & ->).
    unfold load_prompt. rewrite Ht. cbn [bind]. now rewrite Hp.
Qed.

(** C5, as amended. Each of the three streaming kinds, on its own, fills
    a template file of its own ([broadcasts], [lead_magnets],
    [seo_articles]) and hands the prompt to [generate_stream]: a call
    returns a generator exactly when its template is there and can be
    filled, whatever the state of the other templates.  The broadcast post
    and the lead magnet both use the temperature 0.7, the SEO article the
    higher 0.8. *)
Theorem stream_kinds_templates_and_temperatures (w : world) :
  (forall channel business_niche topic tone brand_keywords g,
     generate_broadcast_stream channel business_niche topic tone brand_keywords w
       = inr g <->
     exists tpl prompt,
       files w !! "assets/prompts/broadcasts.txt" = Some tpl /\
       str_format tpl [("channel", channel); ("business_niche", business_niche);
                       ("topic", topic); ("tone", tone);
                       ("brand_keywords", brand_keywords)] = inr prompt /\
       g = generate_stream prompt (VFloat 0.7%float) w) /\
  (forall lm_type topic audience length business_niche g,
     generate_lead_magnet_stream lm_type topic audience length business_niche w
       = inr g <->
     exists tpl prompt,
       files w !! "assets/prompts/lead_magnets.txt" = Some tpl /\
       str_format tpl [("lm_type", lm_type); ("topic", topic);
                       ("audience", audience); ("length", length);
                       ("business_niche", business_niche)] = inr prompt /\
       g = generate_stream prompt (VFloat 0.7%float) w) /\
  (forall business_niche topic target_keywords length g,
     generate_seo_article_stream business_niche topic target_keywords length w
       = inr g <->
     exists tpl prompt,
       files w !! "assets/prompts/seo_articles.txt" = Some tpl /\
       str_format tpl [("business_niche", business_niche); ("topic", topic);
                       ("target_keywords", target_keywords);
                       ("length", length)] = inr prompt /\
       g = generate_stream prompt (VFloat 0.8%float) w) /\
  "assets/prompts/broadcasts.txt" <> "assets/prompts/lead_magnets.txt" /\
  "assets/prompts/broadcasts.txt" <> "assets/prompts/seo_articles.txt" /\
  "assets/prompts/lead_magnets.txt" <> "assets/prompts/seo_articles.txt" /\
  PrimFloat.ltb 0.7%float 0.8%float = true.
Proof.
  split; [|split; [|split]].
  - intros. apply (stream_call_returns "broadcasts").
  - intros. apply (stream_call_returns "lead_magnets").
  - intros. apply (stream_call_returns "seo_articles").
  - repeat split; discriminate.
Qed.

End ContentService.

Lemma stream_kinds_templates_and_temperatures_witness :
  files no_broadcast_template_world !! "assets/prompts/broadcasts.txt" = None /\
  (exists tpl prompt,
     files no_broadcast_template_world !! "assets/prompts/lead_magnets.txt" = Some tpl /\
     @str_format sample_library tpl
       [("lm_type", "guide"); ("topic", "oolong"); ("audience", "beginners");
        ("length", "short"); ("business_niche", "tea")] = inr prompt /\
     generate_stream "A guide about oolong for beginners" (VFloat 0.7%float)
       no_broadcast_template_world =
     generate_stream prompt (VFloat 0.7%float) no_broadcast_template_world) /\
  (exists tpl prompt,
     files no_broadcast_template_world !! "assets/prompts/seo_articles.txt" = Some tpl /\
     @str_format sample_library tpl
       [("business_niche", "tea"); ("topic", "oolong");
        ("target_keywords", "buy tea"); ("length", "short")] = inr prompt /\
     generate_stream "Article about oolong with buy tea" (VFloat 0.8%float)
       no_broadcast_template_world =
     generate_stream prompt (VFloat 0.8%float) no_broadcast_template_world).
Proof.
  split; [vm_compute; reflexivity|].
  split.
  - apply (proj1 (proj2 (@stream_kinds_templates_and_temperatures sample_library
                           no_broadcast_template_world))
             "guide" "oolong" "beginners" "short" "tea").
    vm_compute. reflexivity.
  - apply (proj1 (proj2 (proj2 (@stream_kinds_templates_and_temperatures sample_library
                                  no_broadcast_template_world)))
             "tea" "oolong" "buy tea" "short").
    vm_compute. reflexivity.
Defined.

(** C5 as stated fails: the broadcast post and the lead magnet are not
    generated with distinct temperatures; both requests carry 0.7. *)
Lemma broadcast_and_lead_magnet_share_temperature :
  exists gb gl,
    @generate_broadcast_stream sample_library
      "mail" "tea" "oolong" "warm" "leaf" sample_world = inr gb /\
    @generate_lead_magnet_stream sample_library
      "guide" "oolong" "beginners" "short" "tea" sample_world = inr gl /\
    sent_temperatures gb = [VFloat 0.7%float] /\
    sent_temperatures gl = [VFloat 0.7%float].
Proof.
  eexists _, _. split; [vm_compute; reflexivity|].
  split; [vm_compute; reflexivity|].
  split; vm_compute; reflexivity.
Qed.

Section ContentPlan.

Context `{Library} `{Schema}.

(** Validation keeps the elements in order, one item per element. *)
Lemma validate_items_all (js : list json) (items : list ContentPlanItem) :
  Forall2 (fun j it => validate_item j = inr it) js items ->
  validate_items js = inr items.
Proof.
  induction 1 as [|j it js items Hj _ IH]; [reflexivity|].
  cbn [validate_items]. now rewrite Hj, IH.
Qed.

Lemma validate_items_inr (js : list json) (items : list ContentPlanItem) :
  validate_items js = inr items ->
  Forall2 (fun j it => validate_item j = inr it) js items.
Proof.
  revert items. induction js as [|j js IH]; intros items; cbn [validate_items].
  - intros [= <-]. constructor.
  - destruct (validate_item j) as [m|it] eqn:Hj; [discriminate|].
    destruct (validate_items js) as [m|its]; [discriminate|].
    intros [= <-]. constructor; [exact Hj|]. now apply IH.
Qed.

(** C3. When the bracket span extracted from the model response decodes to
    a JSON array of N elements that are each a valid content-plan object,
    [generate_content_plan] returns the N validated items in the order of
    the array; the bare array is first wrapped as the member [items] of an
    object, and it is that object the schema validates. *)
Theorem content_plan_items_in_order
    (niche period channels extra_context : string) (w : world)
    (tpl prompt raw : string) (js : list json) (items : list ContentPlanItem) :
  load_prompt "content_plan" w = inr tpl ->
  str_format tpl [("niche", niche); ("period", period); ("channels", channels);
                  ("extra_context", extra_context)] = inr prompt ->
  generate_sync prompt (VFloat 0.3%float) w = inr raw ->
  json_loads (_extract_json_from_text raw) = inr (JArray js) ->
  Forall2 (fun j it => validate_item j = inr it) js items ->
  generate_content_plan niche period channels extra_context w = inr items /\
  length items = length js /\
  wrap_bare_list (JArray js) = JObject [("items", JArray js)] /\
  ContentPlan_items (wrap_bare_list (JArray js)) = inr items.
Proof.
  intros Ht Hp Hr Hj Hv.
  assert (ContentPlan_items (wrap_bare_list (JArray js)) = inr items) as Hc.
  { cbn. now rewrite (validate_items_all _ _ Hv). }
  repeat split; try assumption.
  - unfold generate_content_plan. rewrite Ht. cbn [bind]. rewrite Hp. cbn [bind].
    rewrite Hr. cbn [bind]. rewrite Hj. cbn [bind]. now rewrite Hc.
  - symmetry. eapply Forall2_length. exact Hv.
Qed.

End ContentPlan.

Lemma content_plan_items_in_order_witness :
  @generate_content_plan sample_library sample_schema
    "tea" "May" "mail" "none" sample_world = inr ["Launch"; "Review"] /\
  length ["Launch"; "Review"] = 2 /\
  wrap_bare_list (JArray [JObject [("topic", JString "Launch")];
                          JObject [("topic", JString "Review")]]) =
    JObject [("items", JArray [JObject [("topic", JString "Launch")];
                               JObject [("topic", JString "Review")]])] /\
  @ContentPlan_items sample_schema
    (wrap_bare_list (JArray [JObject [("topic", JString "Launch")];
                             JObject [("topic", JString "Review")]])) =
    inr ["Launch"; "Review"].
Proof.
  apply (@content_plan_items_in_order sample_library sample_schema
           "tea" "May" "mail" "none" sample_world
           "Plan for {niche}, {period}, {channels}. {extra_context}"
           "Plan for tea, May, mail. none"
           ("Here is the plan: " +:+ sample_array_text +:+ " Good luck!")
           [JObject [("topic", JString "Launch")];
            JObject [("topic", JString "Review")]]
           ["Launch"; "Review"]).
  - vm_compute. reflexivity.
  - vm_compute. reflexivity.
  - vm_compute. reflexivity.
  - vm_compute. reflexivity.
  - repeat constructor.
Defined.

(** An element that fails validation turns the whole call into the format
    error, which quotes the raw response. *)
Example content_plan_invalid_item :
  exn_kind_of <$>
    (match @ContentPlan_items sample_schema
             (wrap_bare_list (JArray [JObject [("topic", JString "Launch")];
                                      JObject [("title", JString "Review")]]))
     with
     | inl e => Some (format_error "raw" e)
     | inr _ => None
     end) = Some ValueError.
Proof. vm_compute. reflexivity. Qed.

(** ** Font registration *)

Lemma setup_fonts_error (w : world) (st : font_state) :
  (exists e, _setup_fonts w st = inl e) <->
  _FONTS_REGISTERED st = false /\ path_exists w FONT_REGULAR = false.
Proof.
  unfold _setup_fonts.
  destruct (_FONTS_REGISTERED st), (path_exists w FONT_REGULAR); cbn; split.
  all: try (intros [e He]; discriminate He).
  all: try (intros [H1 H2]; discriminate).
  - intros _. now split.
  - intros _. eexists; reflexivity.
Qed.

Lemma setup_fonts_error_kind (w : world) (st : font_state) (e : exn) :
  _setup_fonts w st = inl e -> exn_kind_of e = FileNotFoundError.
Proof.
  unfold _setup_fonts.
  destruct (_FONTS_REGISTERED st); [discriminate|].
  destruct (negb (path_exists w FONT_REGULAR)); [|discriminate].
  now intros [= <-].
Qed.


Section Rendering.

Context `{ReportLab}.








End Rendering.



(** With bold text in regular weight the sample document is rendered; a
    title whose markers do not pair up makes the paragraph fail, whatever
    the fonts. *)
Example pdf_regular_only_rendered :
  snd <$> (match @generate_pdf sample_reportlab "Tea guide"
                   ["## Brewing" +:+ nl +:+ "Use **hot** water"]
                   sample_world fresh_fonts with
           | inr r => Some r | inl _ => None end) =
  Some ("%PDF-1.4" +:+ nl +:+ "Tea guide" +:+ nl +:+ "Brewing" +:+ nl +:+
        "Use <b>hot</b> water" +:+ nl +:+ nl).
Proof. vm_compute. reflexivity. Qed.

Example pdf_title_markup_rejected :
  exn_kind_of <$> (match @generate_pdf sample_reportlab "***a***" []
                           sample_world fresh_fonts with
                   | inl e => Some e | inr _ => None end) = Some ValueError.
Proof. vm_compute. reflexivity. Qed.

(** ** The HTML export *)

Lemma safe_md_cons (a : ascii) (s : string) :
  safe_md (String a s) =
  (if Ascii.eqb a backtick then String backslash (String backtick EmptyString)
   else if Ascii.eqb a dollar then String backslash (String dollar EmptyString)
   else String a EmptyString) +:+ safe_md s.
Proof.
  unfold safe_md. cbn [replace_char].
  destruct (Ascii.eqb a backtick) eqn:Hq.
  - str. cbn [replace_char]. reflexivity.
  - cbn [replace_char]. destruct (Ascii.eqb a dollar); now str.
Qed.

(** What the export does achieve: a text without backslash and without
    carriage return is read back from the script literal as it was. *)
Lemma template_reads_back (text rest : string) :
  free_of backslash text = true ->
  free_of "013" text = true ->
  js_template_value (safe_md text +:+ String backtick rest) = Some (text, rest).
Proof.
  induction text as [|a text IH]; intros Hb Hc; [reflexivity|].
  cbn [free_of] in Hb, Hc.
  apply andb_prop in Hb as [Hb1 Hb], Hc as [Hc1 Hc].
  rewrite safe_md_cons.
  destruct (Ascii.eqb a backtick) eqn:Hq.
  - apply Ascii.eqb_eq in Hq; subst a. str.
    cbn. rewrite (IH Hb Hc). reflexivity.
  - destruct (Ascii.eqb a dollar) eqn:Hd.
    + apply Ascii.eqb_eq in Hd; subst a. str.
      cbn. rewrite (IH Hb Hc). reflexivity.
    + str. cbn [js_template_value]. rewrite Hq, Hd.
      apply negb_true_iff in Hb1, Hc1. rewrite Hb1, Hc1.
      rewrite (IH Hb Hc). reflexivity.
Qed.

Example html_export_plain :
  fst <$> js_template_value (safe_md "Price: `5$` ${x}" +:+ html_tail) =
  Some "Price: `5$` ${x}".
Proof. vm_compute. reflexivity. Qed.

(** C9, evaluated where it fails. The export escapes the backtick and the
    dollar sign but not the backslash.  A Markdown text with a backslash
    before the letter n is embedded unchanged and read back by the viewer
    with a line feed in its place; a text that ends in a backslash leaves
    the script literal open. *)
Theorem html_export_backslash_not_escaped :
  safe_md ("a" +:+ String backslash "nb") = "a" +:+ String backslash "nb" /\
  fst <$> js_template_value (safe_md ("a" +:+ String backslash "nb") +:+ html_tail) =
    Some ("a" +:+ nl +:+ "b") /\
  "a" +:+ nl +:+ "b" <> "a" +:+ String backslash "nb" /\
  js_template_value (safe_md ("a" +:+ String backslash EmptyString) +:+ html_tail) = None.
Proof.
  split; [reflexivity|]. split; [vm_compute; reflexivity|].
  split; [|vm_compute; reflexivity].
  intros H. vm_compute in H. discriminate H.
Qed.

(** * Further properties of the services *)

(** ** The model client: errors, fragments, requests *)

Lemma forward_raises_wrapped (r : response_stream) (e : exn) :
  raised (forward r) = Some e -> exists c, e = wrap_transport c.
Proof.
  induction r as [c r IH| |c]; cbn.
  - destruct (chunk_text c); exact IH.
  - discriminate.
  - intros [= <-]. now exists c.
Qed.

Lemma stream_raises_wrapped (p : string) (t : value) (w : world) (e : exn) :
  raised (generate_stream p t w) = Some e -> exists c, e = wrap_transport c.
Proof.
  unfold generate_stream. destruct (_get_gigachat_client w) as [c|giga]; cbn.
  - intros [= <-]. now exists c.
  - apply forward_raises_wrapped.
Qed.

(** X1. Whatever goes wrong inside a generation call, the caller of
    [generate_stream] or [generate_sync] only ever sees a [RuntimeError]:
    it has the original exception as its cause and quotes its text after
    the fixed prefix. *)
Theorem generation_errors_are_runtime_errors
    (p : string) (t : value) (w : world) (e : exn) :
  generate_sync p t w = inl e \/ raised (generate_stream p t w) = Some e ->
  exn_kind_of e = RuntimeError /\
  exists cause,
    exn_cause e = Some cause /\
    str_exn e = "Ошибка GigaChat API: " +:+ str_exn cause.
Proof.
  intros Hr.
  assert (raised (generate_stream p t w) = Some e) as Hs.
  { destruct Hr as [Hr|Hr]; [|exact Hr].
    unfold generate_sync in Hr. rewrite py_list_drains in Hr.
    destruct (raised (generate_stream p t w)); cbn in Hr; congruence. }
  apply stream_raises_wrapped in Hs as [c ->].
  split; [reflexivity|]. now exists c.
Qed.

Lemma generation_errors_are_runtime_errors_witness :
  exn_kind_of (wrap_transport (Exn SdkError "connection reset" None)) = RuntimeError /\
  exists cause,
    exn_cause (wrap_transport (Exn SdkError "connection reset" None)) = Some cause /\
    str_exn (wrap_transport (Exn SdkError "connection reset" None)) =
      "Ошибка GigaChat API: " +:+ str_exn cause.
Proof.
  apply (generation_errors_are_runtime_errors "hi" VNone broken_transport_world).
  left. vm_compute. reflexivity.
Defined.

Lemma chunk_text_nonempty (c : ChatChunk) (s : string) :
  chunk_text c = Some s -> 0 < String.length s.
Proof.
  unfold chunk_text. destruct (choices c) as [|ch chs]; [discriminate|].
  destruct (delta_content ch) as [d|]; [|discriminate].
  destruct d as [|a d]; cbn; [discriminate|].
  intros [= <-]. cbn. lia.
Qed.

Lemma forward_fragments_nonempty (r : response_stream) (s : string) :
  In s (fragments (forward r)) -> 0 < String.length s.
Proof.
  induction r as [c r IH| |c]; cbn; [|tauto..].
  destruct (chunk_text c) as [d|] eqn:Hc; [|exact IH].
  intros [<-|Hin]; [|now apply IH].
  now apply (chunk_text_nonempty c).
Qed.

(** X2. A fragment yielded by [generate_stream] is never the empty string:
    chunks without choices, and chunks whose first delta has no content or
    an empty one, are passed over. *)
Theorem fragments_are_nonempty (p : string) (t : value) (w : world) (s : string) :
  In s (fragments (generate_stream p t w)) -> 0 < String.length s.
Proof.
  unfold generate_stream. destruct (_get_gigachat_client w) as [c|giga]; cbn.
  - tauto.
  - apply forward_fragments_nonempty.
Qed.

Lemma fragments_are_nonempty_witness : 0 < String.length "Here".
Proof.
  apply (fragments_are_nonempty "hi" VNone broken_transport_world "Here").
  vm_compute. left. reflexivity.
Defined.

(** X3. A generation call sends one chat request at most, also when the
    transport fails on the way (nothing is retried), and none when the
    client cannot be built.  The request goes through the client
    [_get_gigachat_client] built, and carries the prompt as its single
    user message with the fixed cap of 4000 tokens. *)
Theorem one_request_per_call (p : string) (t : value) (w : world) :
  length (requests (generate_stream p t w)) <= 1 /\
  (forall giga chat,
     In (giga, chat) (requests (generate_stream p t w)) ->
     _get_gigachat_client w = inr giga /\
     messages chat = [{| role := USER; content := p |}] /\
     max_tokens chat = 4000) /\
  (forall e, _get_gigachat_client w = inl e -> requests (generate_stream p t w) = []).
Proof.
  destruct (_get_gigachat_client w) as [c|giga] eqn:Hc.
  - unfold generate_stream. rewrite Hc. cbn. repeat split; try lia; tauto.
  - rewrite (generate_stream_requests p t w giga Hc). cbn [length In].
    split; [lia|]. split; [|discriminate].
    intros g chat [[= <- <-]|[]]. repeat split.
Qed.

Lemma py_list_forward_chunks (cs : list ChatChunk) :
  py_list (forward (chunks_then_end cs)) = inr (omap chunk_text cs).
Proof.
  induction cs as [|c cs IH]; [reflexivity|].
  cbn [chunks_then_end forward omap list_omap].
  destruct (chunk_text c); cbn [py_list]; rewrite IH; reflexivity.
Qed.

Lemma chunk_text_first_delta (c : ChatChunk) :
  first_delta c = default EmptyString (chunk_text c).
Proof.
  unfold first_delta, chunk_text. destruct (choices c) as [|ch chs]; [reflexivity|].
  destruct (delta_content ch) as [[|a d]|]; reflexivity.
Qed.

Lemma join_passed_over (cs : list ChatChunk) :
  join_empty (omap chunk_text cs) = join_empty (first_delta <$> cs).
Proof.
  induction cs as [|c cs IH]; [reflexivity|].
  cbn [omap list_omap fmap list_fmap join_empty].
  rewrite chunk_text_first_delta.
  destruct (chunk_text c); cbn [join_empty default]; now rewrite <- IH.
Qed.

(** X4. When the remote side delivers a list of chunks and ends,
    [generate_sync] returns the concatenation of the first-choice deltas of
    all of them, in order: passing over the chunks without text loses
    nothing. *)
Theorem sync_concatenates_first_deltas
    (p : string) (t : value) (w : world) (giga : GigaChat) (cs : list ChatChunk) :
  _get_gigachat_client w = inr giga ->
  (forall chat, In (giga, chat) (requests (generate_stream p t w)) ->
                giga_stream w giga chat = chunks_then_end cs) ->
  generate_sync p t w =
  inr (fold_right String.append EmptyString (first_delta <$> cs)).
Proof.
  intros Hc Hs.
  pose proof (generate_stream_requests p t w giga Hc) as Hr.
  unfold generate_sync. unfold generate_stream in *. rewrite Hc in *.
  cbn [requests] in Hr. rewrite forward_sends_nothing in Hr.
  cbn [py_list]. rewrite (Hs _ (or_introl eq_refl)).
  rewrite py_list_forward_chunks. cbn [bind].
  now rewrite join_passed_over, join_empty_concatenates.
Qed.

Lemma sync_concatenates_first_deltas_witness :
  generate_sync "hi" VNone sample_world =
  inr (fold_right String.append EmptyString
         (first_delta <$>
            [text_chunk "Here is the plan: "; {| choices := [] |};
             text_chunk sample_array_text; text_chunk " Good luck!"])).
Proof.
  refine (sync_concatenates_first_deltas "hi" VNone sample_world _ _ _ _).
  - vm_compute. reflexivity.
  - intros chat _. reflexivity.
Defined.

Example sync_concatenation_sample :
  generate_sync "hi" VNone sample_world =
  inr ("Here is the plan: " +:+ sample_array_text +:+ " Good luck!").
Proof. vm_compute. reflexivity. Qed.

(** ** The model client: configuration *)

Lemma client_fields (w : world) (giga : GigaChat) :
  _get_gigachat_client w = inr giga ->
  credentials giga = resolved_credentials w /\
  truthy (resolved_credentials w) = true /\
  model giga = client_model w.
Proof.
  unfold _get_gigachat_client. destruct (secrets_failure w); [discriminate|].
  fold (resolved_credentials w).
  destruct (truthy (resolved_credentials w)); cbn [negb]; [|discriminate].
  destruct (truthy (py_or _ (getenv w "GIGACHAT_CA_BUNDLE_FILE"))).
  - destruct (py_or _ (getenv w "GIGACHAT_CA_BUNDLE_FILE")); try discriminate.
    intros [= <-]. repeat split.
  - intros [= <-]. repeat split.
Qed.

(** X5. A model chosen in the session reaches both places: the client is
    configured with it and the chat request names it, whatever the secrets
    and the environment say. *)
Theorem session_model_overrides_everywhere
    (p : string) (t : value) (w : world) (giga : GigaChat) (m : value) :
  session_state w !! "llm_model" = Some m ->
  _get_gigachat_client w = inr giga ->
  client_models (generate_stream p t w) = [m] /\
  sent_models (generate_stream p t w) = [m].
Proof.
  intros Hm Hc. unfold client_models, sent_models.
  rewrite (generate_stream_requests p t w giga Hc). cbn.
  destruct (client_fields w giga Hc) as (_ & _ & ->).
  unfold client_model, dict_get_default. rewrite Hm. split; reflexivity.
Qed.

(** X6. When the secrets cannot be read, [_get_gigachat_client] raises
    the exception of [st.secrets] and builds no client, whatever the
    environment holds.  When they can be read, it raises its credentials
    error exactly when neither the secret nor the environment variable
    holds a usable credential; a secret that is present but empty counts as
    absent, and the environment variable is then consulted. *)
Theorem credentials_error_iff_unresolved (w : world) :
  (forall e, secrets_failure w = Some e -> _get_gigachat_client w = inl e) /\
  (secrets_failure w = None ->
   (_get_gigachat_client w = inl credentials_missing_error <->
    truthy (resolved_credentials w) = false)) /\
  (forall giga, _get_gigachat_client w = inr giga ->
     secrets_failure w = None /\
     credentials giga =
       if truthy (dict_get (default ∅ (secrets w !! "gigachat")) "credentials")
       then dict_get (default ∅ (secrets w !! "gigachat")) "credentials"
       else getenv w "GIGACHAT_CREDENTIALS").
Proof.
  split; [|split].
  - intros e He. unfold _get_gigachat_client. now rewrite He.
  - intros Hs. split.
    + intros He. destruct (truthy (resolved_credentials w)) eqn:Ht; [|reflexivity].
      exfalso. revert He. unfold _get_gigachat_client. rewrite Hs.
      fold (resolved_credentials w). rewrite Ht. cbn [negb].
      destruct (truthy (py_or _ (getenv w "GIGACHAT_CA_BUNDLE_FILE"))); [|discriminate].
      destruct (py_or _ (getenv w "GIGACHAT_CA_BUNDLE_FILE")); discriminate.
    + intros Ht. unfold _get_gigachat_client. rewrite Hs.
      fold (resolved_credentials w). now rewrite Ht.
  - intros giga Hc. split.
    + revert Hc. unfold _get_gigachat_client.
      destruct (secrets_failure w); [discriminate|reflexivity].
    + now destruct (client_fields w giga Hc) as (-> & _ & _).
Qed.

Lemma credentials_error_iff_unresolved_witness :
  _get_gigachat_client no_secrets_file_world =
    inl (Exn StreamlitSecretNotFoundError "No secrets found." None) /\
  environ no_secrets_file_world !! "GIGACHAT_CREDENTIALS" = Some "ZW52".
Proof.
  split; [|reflexivity].
  apply (credentials_error_iff_unresolved no_secrets_file_world). reflexivity.
Defined.

(** The CA bundle the client resolves: the secret, else the environment. *)
Lemma client_without_bundle (w : world) (giga : GigaChat) :
  truthy (py_or (dict_get (default ∅ (secrets w !! "gigachat")) "ca_bundle_file")
                (getenv w "GIGACHAT_CA_BUNDLE_FILE")) = false ->
  _get_gigachat_client w = inr giga ->
  ca_bundle_file giga = VNone /\
  verify_ssl_certs giga =
    dict_get_default (default ∅ (secrets w !! "gigachat")) "verify_ssl" (VBool false).
Proof.
  intros Hb. unfold _get_gigachat_client.
  destruct (secrets_failure w); [discriminate|].
  destruct (negb (truthy _)); [discriminate|]. rewrite Hb.
  intros [= <-]. split; reflexivity.
Qed.

(** X7. Without a CA bundle in the secrets or the environment, and without
    a [verify_ssl] entry in the secrets, the client is built with
    certificate verification switched off and no bundle. *)
Theorem ssl_verification_off_by_default (w : world) (giga : GigaChat) :
  truthy (py_or (dict_get (default ∅ (secrets w !! "gigachat")) "ca_bundle_file")
                (getenv w "GIGACHAT_CA_BUNDLE_FILE")) = false ->
  default ∅ (secrets w !! "gigachat") !! "verify_ssl" = None ->
  _get_gigachat_client w = inr giga ->
  verify_ssl_certs giga = VBool false /\ ca_bundle_file giga = VNone.
Proof.
  intros Hb Hv Hc. destruct (client_without_bundle w giga Hb Hc) as [-> ->].
  unfold dict_get_default. now rewrite Hv.
Qed.

(** X8. With a CA bundle path configured, certificate verification is
    switched on whether or not the file is there; the path itself is
    handed to the client only when the file exists. *)
Theorem ssl_bundle_configured (w : world) (giga : GigaChat) (path : string) :
  py_or (dict_get (default ∅ (secrets w !! "gigachat")) "ca_bundle_file")
        (getenv w "GIGACHAT_CA_BUNDLE_FILE") = VStr path ->
  String.eqb path EmptyString = false ->
  _get_gigachat_client w = inr giga ->
  verify_ssl_certs giga = VBool true /\
  ca_bundle_file giga = if path_exists w path then VStr path else VNone.
Proof.
  intros Hb Hp. unfold _get_gigachat_client.
  destruct (secrets_failure w); [discriminate|].
  destruct (negb (truthy _)); [discriminate|]. rewrite Hb.
  cbn [truthy]. rewrite Hp. cbn [negb]. intros [= <-]. split; reflexivity.
Qed.

Lemma session_model_overrides_everywhere_witness :
  client_models (generate_stream "hi" VNone session_world) = [VStr "GigaChat-2-Lite"] /\
  sent_models (generate_stream "hi" VNone session_world) = [VStr "GigaChat-2-Lite"].
Proof.
  refine (session_model_overrides_everywhere "hi" VNone session_world _ _ _ _).
  - vm_compute. reflexivity.
  - vm_compute. reflexivity.
Defined.

Lemma ssl_verification_off_by_default_witness :
  exists giga,
    _get_gigachat_client sample_world = inr giga /\
    verify_ssl_certs giga = VBool false /\ ca_bundle_file giga = VNone.
Proof.
  eexists. split; [vm_compute; reflexivity|].
  apply (ssl_verification_off_by_default sample_world); vm_compute; reflexivity.
Defined.

Lemma ssl_bundle_configured_witness :
  exists giga,
    _get_gigachat_client bundle_world = inr giga /\
    credentials giga = VStr "ZW52" /\
    verify_ssl_certs giga = VBool true /\
    ca_bundle_file giga =
      if path_exists bundle_world "certs/russian_trusted_root_ca.cer"
      then VStr "certs/russian_trusted_root_ca.cer" else VNone.
Proof.
  eexists. split; [vm_compute; reflexivity|]. split; [reflexivity|].
  apply (ssl_bundle_configured bundle_world); vm_compute; reflexivity.
Defined.

(** ** The extractor: what is cut away *)

Lemma find_last_none (c : ascii) (s : string) :
  find_last c s = None -> free_of c s = true.
Proof.
  induction s as [|a s IH]; [reflexivity|]. cbn [find_last free_of].
  destruct (find_last c s); [discriminate|].
  destruct (Ascii.eqb a c); [discriminate|]. intros _. now rewrite IH.
Qed.

Lemma find_last_split (c : ascii) (s : string) (j : nat) :
  find_last c s = Some j ->
  exists mid post,
    s = mid +:+ String c post /\ String.length mid = j /\ free_of c post = true.
Proof.
  revert j. induction s as [|a s IH]; intros j; cbn [find_last]; [discriminate|].
  destruct (find_last c s) as [j'|] eqn:Hl.
  - intros [= <-]. destruct (IH j' eq_refl) as (mid & post & -> & <- & Hp).
    exists (String a mid), post. now str.
  - destruct (Ascii.eqb a c) eqn:Ha; [|discriminate].
    intros [= <-]. apply Ascii.eqb_eq in Ha; subst a.
    exists EmptyString, s. repeat split. now apply find_last_none.
Qed.

Lemma substring_prefix (u v : string) :
  String.substring 0 (String.length u) (u +:+ v) = u.
Proof.
  induction u as [|a u IH]; str; cbn [String.length String.substring].
  - destruct v; reflexivity.
  - now rewrite IH.
Qed.

Lemma substring_shift (a : ascii) (s : string) (i n : nat) :
  String.substring (S i) n (String a s) = String.substring i n s.
Proof. reflexivity. Qed.

(** A successful search splits the text around the match. *)
Lemma search_splits (s : string) (i n : nat) (g : string) :
  Re.search json_array_pattern s = Some (i, n, g) ->
  exists pre mid post,
    s = pre +:+ String "[" (mid +:+ String "]" post) /\
    free_of "[" pre = true /\ free_of "]" post = true /\
    String.substring i n s = String "[" (mid +:+ String "]" EmptyString).
Proof.
  revert i. induction s as [|a s IH]; intros i; cbn [Re.search];
    rewrite array_pattern_at; [discriminate|].
  destruct (Ascii.eqb a "[") eqn:Ha.
  - apply Ascii.eqb_eq in Ha; subst a.
    destruct (find_last "]" s) as [j|] eqn:Hl.
    + intros [= <- <- <-].
      destruct (find_last_split _ _ _ Hl) as (mid & post & -> & <- & Hp).
      exists EmptyString, mid, post. repeat split; [exact Hp|].
      cbn [String.substring]. f_equal.
      replace (mid +:+ String "]" post) with ((mid +:+ String "]" EmptyString) +:+ post)
        by (rewrite append_assoc; now str).
      replace (S (String.length mid)) with (String.length (mid +:+ String "]" EmptyString))
        by (rewrite length_append; cbn; lia).
      apply substring_prefix.
    + rewrite (search_without_closing s Hl). discriminate.
  - destruct (Re.search json_array_pattern s) as [[[i' n'] g']|]; [|discriminate].
    cbn [fmap option_fmap option_map]. intros [= <- <- <-].
    destruct (IH i' eq_refl) as (pre & mid & post & -> & Hpre & Hpost & Hsub).
    exists (String a pre), mid, post. str. repeat split.
    + cbn [free_of]. now rewrite Ha, Hpre.
    + exact Hpost.
    + rewrite substring_shift. exact Hsub.
Qed.

Lemma find_last_end (c : ascii) (mid : string) :
  find_last c (mid +:+ String c EmptyString) = Some (String.length mid).
Proof.
  induction mid as [|a mid IH]; str; cbn [find_last String.length].
  - now rewrite Ascii.eqb_refl.
  - now rewrite IH.
Qed.

Lemma substring_all (s : string) : String.substring 0 (String.length s) s = s.
Proof.
  induction s as [|a s IH]; [reflexivity|].
  cbn [String.length String.substring]. now rewrite IH.
Qed.

Lemma extract_bracketed (mid : string) :
  _extract_json_from_text (String "[" (mid +:+ String "]" EmptyString)) =
  String "[" (mid +:+ String "]" EmptyString).
Proof.
  unfold _extract_json_from_text. cbn [Re.search]. rewrite array_pattern_at.
  rewrite Ascii.eqb_refl, find_last_end.
  cbn [String.substring]. f_equal.
  replace (S (String.length mid)) with (String.length (mid +:+ String "]" EmptyString))
    by (rewrite length_append; cbn; lia).
  apply substring_all.
Qed.

(** X9. The extractor either returns the text as it is, when no opening
    bracket stands before a closing one, or cuts away exactly a prefix
    without opening bracket and a suffix without closing bracket: the text
    is prefix, result, suffix, and the result starts with [[] and ends with
    []]. *)
Theorem extract_cuts_prefix_and_suffix (text : string) :
  (bracket_pair text = None /\ _extract_json_from_text text = text) \/
  (exists pre mid post,
     text = pre +:+ _extract_json_from_text text +:+ post /\
     _extract_json_from_text text = String "[" (mid +:+ String "]" EmptyString) /\
     free_of "[" pre = true /\ free_of "]" post = true).
Proof.
  pose proof (search_bracket_pair text) as Hp.
  unfold _extract_json_from_text.
  destruct (Re.search json_array_pattern text) as [[[i n] g]|] eqn:Hs.
  - right. destruct (search_splits text i n g Hs) as (pre & mid & post & Ht & H1 & H2 & Hsub).
    exists pre, mid, post. rewrite Hsub. repeat split; try assumption.
    rewrite Ht at 1. f_equal. str. f_equal. rewrite append_assoc. now str.
  - left. split; [|reflexivity].
    destruct (bracket_pair text); [discriminate Hp|reflexivity].
Qed.

(** X10. Extracting twice is extracting once. *)
Theorem extract_idempotent (text : string) :
  _extract_json_from_text (_extract_json_from_text text) =
  _extract_json_from_text text.
Proof.
  destruct (Re.search json_array_pattern text) as [[[i n] g]|] eqn:Hs.
  - destruct (search_splits text i n g Hs) as (pre & mid & post & _ & _ & _ & Hsub).
    assert (_extract_json_from_text text = String "[" (mid +:+ String "]" EmptyString)) as ->.
    { unfold _extract_json_from_text. now rewrite Hs. }
    apply extract_bracketed.
  - assert (_extract_json_from_text text = text) as E.
    { unfold _extract_json_from_text. now rewrite Hs. }
    now rewrite !E.
Qed.

(** ** The Markdown converter: plain text and italic spans *)

Lemma append_empty (s : string) : s +:+ EmptyString = s.
Proof. induction s as [|a s IH]; [reflexivity|]. str. now rewrite IH. Qed.

Lemma sub_plain_identity (p : list Re.atom) (repl : string -> string) (text : string) :
  free_of "*" text = true ->
  Re.sub (Re.Chr "*" :: p) repl text = text.
Proof.
  intros Hf. unfold Re.sub.
  rewrite <- (append_empty text) at 1.
  rewrite (sub_copies_plain repl p text EmptyString Hf).
  cbn [Re.sub_from Re.match_here]. apply append_empty.
Qed.

Lemma md_identity_on_plain (text : string) :
  free_of "*" text = true -> _md_to_html_tags text = text.
Proof.
  intros Hf. unfold _md_to_html_tags, bold_pattern, italic_pattern.
  rewrite (sub_plain_identity _ bold_repl text Hf).
  now rewrite (sub_plain_identity _ italic_repl text Hf).
Qed.

(** X11. A text without asterisks passes through the converter
    unchanged. *)
Theorem md_plain_text_unchanged (text : string) :
  free_of "*" text = true -> _md_to_html_tags text = text.
Proof. apply md_identity_on_plain. Qed.

Lemma md_plain_text_unchanged_witness :
  _md_to_html_tags "Price: 5 # per <unit>" = "Price: 5 # per <unit>".
Proof. apply md_plain_text_unchanged. reflexivity. Defined.

(** The bold pattern does not match at a lone asterisk. *)
Lemma bold_not_at_single_star (s : string) :
  String.prefix "*" s = false ->
  Re.match_here bold_pattern (String "*" s) = None.
Proof.
  intros Hp. unfold bold_pattern. rewrite match_here_chr. cbn [Ascii.eqb Bool.eqb].
  destruct s as [|b s]; [reflexivity|].
  rewrite match_here_chr. cbn [String.prefix] in Hp.
  destruct (Ascii.eqb b "*") eqn:Hb; [|reflexivity].
  apply Ascii.eqb_eq in Hb; subst b. cbn in Hp. destruct s; discriminate.
Qed.

Lemma prefix_star_plain (a : ascii) (text rest : string) :
  free_of "*" (String a text) = true ->
  String.prefix "*" (String a text +:+ rest) = false.
Proof.
  cbn [free_of]. intros Hf. apply andb_prop in Hf as [Ha _].
  str. cbn [String.prefix].
  destruct (ascii_dec "*" a) as [<-|Hne]; [discriminate Ha|reflexivity].
Qed.

Lemma bold_sub_keeps_italic_span (pre text post : string) :
  free_of "*" pre = true ->
  free_of "*" text = true ->
  0 < String.length text ->
  String.prefix "*" post = false ->
  Re.sub bold_pattern bold_repl (pre +:+ String "*" (text +:+ String "*" post)) =
  pre +:+ String "*" (text +:+ String "*" (Re.sub bold_pattern bold_repl post)).
Proof.
  intros Hp Hs Hlen Hpost. unfold Re.sub, bold_pattern.
  rewrite sub_copies_plain by assumption. f_equal. fold bold_pattern.
  rewrite sub_from_here, bold_not_at_single_star.
  2:{ destruct text as [|a text]; [cbn in Hlen; lia|]. now apply prefix_star_plain. }
  f_equal. unfold bold_pattern. rewrite sub_copies_plain by assumption.
  f_equal. fold bold_pattern.
  rewrite sub_from_here, bold_not_at_single_star by assumption. reflexivity.
Qed.

Lemma italic_matches_span (text rest : string) :
  free_of "*" text = true ->
  free_of Re.newline text = true ->
  Re.match_here italic_pattern (String "*" (text +:+ String "*" rest)) =
  Some (String.length text + 2, text).
Proof.
  intros Hs Hn. unfold italic_pattern.
  rewrite match_here_chr. cbn [Ascii.eqb Bool.eqb].
  rewrite (lazy_to_delimiter [] text _ 1 Hs Hn) by reflexivity.
  unfold Re.step; cbn [fmap option_fmap option_map fst snd]. do 2 f_equal. lia.
Qed.

Lemma italic_sub_span (pre text rest : string) :
  free_of "*" pre = true ->
  free_of "*" text = true ->
  free_of Re.newline text = true ->
  Re.sub italic_pattern italic_repl (pre +:+ String "*" (text +:+ String "*" rest)) =
  pre +:+ italic_repl text +:+ Re.sub italic_pattern italic_repl rest.
Proof.
  intros Hp Hs Hn. rewrite italic_sub_plain by assumption. f_equal.
  unfold Re.sub. rewrite sub_from_here, (italic_matches_span text rest Hs Hn).
  replace (String.length text + 2) with (S (String.length text + 1)) by lia.
  apply f_equal.
  replace (text +:+ String "*" rest) with ((text +:+ "*") +:+ rest)
    by (rewrite append_assoc; now str).
  replace (String.length text + 1) with (String.length (text +:+ "*"))
    by (rewrite length_append; reflexivity).
  apply sub_skips.
Qed.

(** X12. An italic span [*text*] whose text is not empty and has no
    asterisk and no line break, standing after text without asterisks and
    not followed by another asterisk, is converted to [<i>text</i>]; what
    follows the span is converted on its own. *)
Theorem md_italic_span (pre text post : string) :
  free_of "*" pre = true ->
  free_of "*" text = true ->
  free_of Re.newline text = true ->
  0 < String.length text ->
  String.prefix "*" post = false ->
  _md_to_html_tags (pre +:+ "*" +:+ text +:+ "*" +:+ post) =
  pre +:+ "<i>" +:+ text +:+ "</i>" +:+ _md_to_html_tags post.
Proof.
  intros Hp Hs Hn Hlen Hpost. unfold _md_to_html_tags. str.
  rewrite (bold_sub_keeps_italic_span pre text post Hp Hs Hlen Hpost).
  rewrite (italic_sub_span pre text _ Hp Hs Hn).
  unfold italic_repl. rewrite !append_assoc. now str.
Qed.

Lemma md_italic_span_witness :
  _md_to_html_tags ("see " +:+ "*" +:+ "this" +:+ "*" +:+ " and **that**") =
  "see " +:+ "<i>" +:+ "this" +:+ "</i>" +:+ _md_to_html_tags " and **that**".
Proof.
  apply (md_italic_span "see " "this" " and **that**"); try reflexivity.
  cbn. lia.
Defined.

Example md_italic_before_bold_start :
  _md_to_html_tags "*a**b**" = "*a<b>b</b>".
Proof. reflexivity. Qed.

(** ** Font registration: later calls and the full font set *)

(** X13. Font setup happens once: after a successful [_setup_fonts] the
    flag is set, and every later call returns the same state without
    looking at the font files. *)
Theorem setup_fonts_once (w w' : world) (st st' : font_state) :
  _setup_fonts w st = inr st' ->
  _FONTS_REGISTERED st' = true /\ _setup_fonts w' st' = inr st'.
Proof.
  unfold _setup_fonts at 1.
  destruct (_FONTS_REGISTERED st) eqn:Hr.
  - intros [= <-]. split; [exact Hr|]. unfold _setup_fonts. now rewrite Hr.
  - destruct (negb (path_exists w FONT_REGULAR)); [discriminate|].
    intros [= <-]. split; reflexivity.
Qed.

Lemma setup_fonts_once_witness :
  exists st',
    _setup_fonts sample_world fresh_fonts = inr st' /\
    _FONTS_REGISTERED st' = true /\ _setup_fonts no_fonts_world st' = inr st'.
Proof.
  eexists. split; [reflexivity|].
  apply (setup_fonts_once sample_world no_fonts_world fresh_fonts). reflexivity.
Defined.



(** ** The HTML export: what is read back *)

Lemma safe_md_adds_no_angle (text : string) :
  free_of "<" text = true -> free_of "<" (safe_md text) = true.
Proof.
  induction text as [|a text IH]; intros Hf; [reflexivity|].
  cbn [free_of] in Hf. apply andb_prop in Hf as [Ha Hf].
  rewrite safe_md_cons.
  destruct (Ascii.eqb a backtick); [|destruct (Ascii.eqb a dollar)];
    str; cbn [free_of]; rewrite ?Ha, (IH Hf); reflexivity.
Qed.

(** X15. For a Markdown text without backslash, carriage return and [<],
    the text embedded in the script of the exported page holds no [<], so
    nothing in it can end or escape the script element, and the template
    literal it forms with the closing backtick of the template is read
    back as exactly the original text: the escaping of backticks and dollar
    signs is undone by the viewer. *)
Theorem html_export_round_trip (text title : string) :
  free_of backslash text = true ->
  free_of "013" text = true ->
  free_of "<" text = true ->
  create_html_export text title = html_head title +:+ safe_md text +:+ html_tail /\
  free_of "<" (safe_md text) = true /\
  fst <$> js_template_value (safe_md text +:+ html_tail) = Some text.
Proof.
  intros Hb Hc Ha. split; [reflexivity|]. split; [now apply safe_md_adds_no_angle|].
  unfold html_tail.
  change ("`;" +:+ ?r) with (String backtick (";" +:+ r)).
  now rewrite (template_reads_back text _ Hb Hc).
Qed.

Lemma html_export_round_trip_witness :
  create_html_export "Use `x` for $5 and ${y}" "Tea" =
    html_head "Tea" +:+ safe_md "Use `x` for $5 and ${y}" +:+ html_tail /\
  free_of "<" (safe_md "Use `x` for $5 and ${y}") = true /\
  fst <$> js_template_value (safe_md "Use `x` for $5 and ${y}" +:+ html_tail) =
  Some "Use `x` for $5 and ${y}".
Proof. apply html_export_round_trip; reflexivity. Defined.

(** ** The story of a PDF *)

Lemma free_of_suffix (c : ascii) (u v : string) :
  free_of c (u +:+ v) = true -> free_of c v = true.
Proof.
  induction u as [|a u IH]; [tauto|]. str. cbn [free_of].
  intros H. apply andb_prop in H as [_ H]. now apply IH.
Qed.

(** [lstrip] returns a suffix of its argument. *)
Lemma lstrip_suffix (s : string) : exists u, s = u +:+ lstrip s.
Proof.
  remember (String.length s) as n eqn:Hn.
  revert s Hn. induction n as [n IH] using lt_wf_ind. intros s Hn.
  destruct s as [|a s1]; [now exists EmptyString|].
  cbn [lstrip]. destruct (is_space_byte a).
  { destruct (IH (String.length s1)) with (s := s1) as [u Hu];
      [subst n; cbn; lia|reflexivity|].
    exists (String a u). str. now rewrite <- Hu. }
  destruct s1 as [|b s2]; [now exists EmptyString|].
  destruct (is_space_2 a b).
  { destruct (IH (String.length s2)) with (s := s2) as [u Hu];
      [subst n; cbn; lia|reflexivity|].
    exists (String a (String b u)). str. now rewrite <- Hu. }
  destruct s2 as [|c s3]; [now exists EmptyString|].
  destruct (is_space_3 a b c).
  { destruct (IH (String.length s3)) with (s := s3) as [u Hu];
      [subst n; cbn; lia|reflexivity|].
    exists (String a (String b (String c u))). str. now rewrite <- Hu. }
  now exists EmptyString.
Qed.

Lemma free_of_lstrip (c : ascii) (s : string) :
  free_of c s = true -> free_of c (lstrip s) = true.
Proof.
  intros Hf. destruct (lstrip_suffix s) as [u Hu].
  rewrite Hu in Hf. now apply free_of_suffix in Hf.
Qed.

Lemma free_of_rstrip (c : ascii) (s : string) :
  free_of c s = true -> free_of c (rstrip s) = true.
Proof.
  induction s as [|a s IH]; [tauto|].
  cbn [rstrip free_of]. intros H. apply andb_prop in H as [Ha H].
  destruct (blank (String a s)); [reflexivity|].
  cbn [free_of]. now rewrite Ha, IH.
Qed.

Lemma free_of_strip (c : ascii) (s : string) :
  free_of c s = true -> free_of c (strip s) = true.
Proof. intros H. unfold strip. now apply free_of_rstrip, free_of_lstrip. Qed.

Lemma free_of_removed (c : ascii) (s : string) :
  free_of c (replace_char c EmptyString s) = true.
Proof.
  induction s as [|a s IH]; [reflexivity|]. cbn [replace_char].
  destruct (Ascii.eqb a c) eqn:Ha; [exact IH|].
  cbn [free_of]. now rewrite Ha, IH.
Qed.

Section Story.

Context `{ReportLab}.

Lemma new_paragraph_returns (st : font_state) (text : string) (style : ParagraphStyle)
    (f : flowable) :
  new_paragraph st text style = inr f -> f = Paragraph text style.
Proof.
  unfold new_paragraph. destruct (paragraph_error st text style); [discriminate|].
  now intros [= <-].
Qed.

(** X16. Whenever the story can be built, it opens with the title
    paragraph in the title style, and whatever the title holds, its text
    in the story has no [#] left. *)
Theorem story_title_has_no_hash (st : font_state) (fonts : pdf_styles)
    (title : string) (sections : list string) (flowables : list flowable) :
  story st fonts title sections = inr flowables ->
  exists text rest,
    flowables = Paragraph text (CustomTitle fonts) :: rest /\
    free_of "#" text = true.
Proof.
  unfold story.
  destruct (new_paragraph _ _ _) as [e|f] eqn:Hp; cbn [bind]; [discriminate|].
  destruct (sections_flowables st fonts sections) as [e|body]; cbn [bind]; [discriminate|].
  intros [= <-]. apply new_paragraph_returns in Hp as ->.
  eexists _, _. split; [reflexivity|]. apply free_of_strip, free_of_removed.
Qed.

Lemma line_has_no_spacer (st : font_state) (fonts : pdf_styles) (line : string)
    (fs : list flowable) :
  line_flowables st fonts line = inr fs -> List.filter is_spacer fs = [].
Proof.
  unfold line_flowables.
  destruct (String.eqb (strip line) ""); [now intros [= <-]|].
  destruct (String.prefix "##" (strip line));
    [|destruct (String.prefix "#" (strip line))];
    (destruct (new_paragraph _ _ _) as [e|f] eqn:Hp; cbn [bind]; [discriminate|];
     intros [= <-]; now apply new_paragraph_returns in Hp as ->).
Qed.

Lemma lines_have_no_spacer (st : font_state) (fonts : pdf_styles)
    (lines : list string) (fs : list flowable) :
  lines_flowables st fonts lines = inr fs -> List.filter is_spacer fs = [].
Proof.
  revert fs. induction lines as [|l ls IH]; intros fs; cbn [lines_flowables].
  - now intros [= <-].
  - destruct (line_flowables st fonts l) as [e|fl] eqn:Hl; cbn [bind]; [discriminate|].
    destruct (lines_flowables st fonts ls) as [e|more]; cbn [bind]; [discriminate|].
    intros [= <-]. rewrite List.filter_app, (line_has_no_spacer _ _ _ _ Hl).
    now apply IH.
Qed.

Lemma sections_spacers (st : font_state) (fonts : pdf_styles)
    (sections : list string) (fs : list flowable) :
  sections_flowables st fonts sections = inr fs ->
  count_spacers fs = length sections.
Proof.
  unfold count_spacers. revert fs.
  induction sections as [|sec secs IH]; intros fs; cbn [sections_flowables].
  - now intros [= <-].
  - unfold section_flowables.
    destruct (lines_flowables st fonts (split_on Re.newline sec)) as [e|fl] eqn:Hl;
      cbn [bind]; [discriminate|].
    destruct (sections_flowables st fonts secs) as [e|more]; cbn [bind]; [discriminate|].
    intros [= <-]. rewrite !List.filter_app, (lines_have_no_spacer _ _ _ _ Hl).
    cbn [List.filter is_spacer app length]. f_equal. now apply IH.
Qed.

(** X17. Whenever the story can be built, it has exactly one spacer per
    section, whatever the sections hold: an empty section, or one of blank
    lines only, still adds its spacer, and no line of text ever adds
    one. *)
Theorem story_one_spacer_per_section (st : font_state) (fonts : pdf_styles)
    (title : string) (sections : list string) (flowables : list flowable) :
  story st fonts title sections = inr flowables ->
  count_spacers flowables = length sections.
Proof.
  unfold story.
  destruct (new_paragraph _ _ _) as [e|f] eqn:Hp; cbn [bind]; [discriminate|].
  destruct (sections_flowables st fonts sections) as [e|body] eqn:Hs; cbn [bind];
    [discriminate|].
  intros [= <-]. apply new_paragraph_returns in Hp as ->.
  unfold count_spacers. cbn [List.filter is_spacer].
  exact (sections_spacers st fonts sections body Hs).
Qed.

Lemma prefix_longer (a : ascii) (s : string) :
  String.prefix (String a EmptyString) s = false ->
  String.prefix (String a (String a EmptyString)) s = false.
Proof.
  destruct s as [|b s]; [reflexivity|]. cbn [String.prefix].
  destruct (ascii_dec a b); [|reflexivity]. destruct s; discriminate.
Qed.

(** X18. A line of body text without asterisks goes to ReportLab as it
    is, trimmed of surrounding whitespace: when the trimmed line is not
    empty and does not start with [#], the one paragraph asked for is a
    body paragraph with the trimmed line as its text, and it is what the
    line contributes when ReportLab accepts it. *)
Theorem plain_body_line_verbatim (st : font_state) (fonts : pdf_styles) (line : string) :
  free_of "*" line = true ->
  String.eqb (strip line) EmptyString = false ->
  String.prefix "#" (strip line) = false ->
  line_flowables st fonts line =
    (f <- new_paragraph st (strip line) (CustomBody fonts) ;; inr [f]) /\
  (forall fs, line_flowables st fonts line = inr fs ->
              fs = [Paragraph (strip line) (CustomBody fonts)]).
Proof.
  intros Hf He Hp.
  assert (line_flowables st fonts line =
          (f <- new_paragraph st (strip line) (CustomBody fonts) ;; inr [f])) as E.
  { unfold line_flowables. rewrite He, (prefix_longer _ _ Hp), Hp.
    now rewrite (md_identity_on_plain _ (free_of_strip _ _ Hf)). }
  split; [exact E|]. intros fs. rewrite E.
  destruct (new_paragraph _ _ _) as [e|f] eqn:Hn; cbn [bind]; [discriminate|].
  intros [= <-]. now apply new_paragraph_returns in Hn as ->.
Qed.

End Story.

Lemma story_title_has_no_hash_witness :
  exists text rest,
    [Paragraph "My  Title" (CustomTitle (style_fonts sample_world));
     Paragraph "Body <b>text</b>" (CustomBody (style_fonts sample_world));
     Spacer 1 15] =
    Paragraph text (CustomTitle (style_fonts sample_world)) :: rest /\
    free_of "#" text = true.
Proof.
  apply (@story_title_has_no_hash sample_reportlab regular_only_fonts
           (style_fonts sample_world) "My # Title" ["Body **text**"]).
  vm_compute. reflexivity.
Defined.

Lemma story_one_spacer_per_section_witness :
  count_spacers
    [Paragraph "My  Title" (CustomTitle (style_fonts sample_world));
     Paragraph "Body <b>text</b>" (CustomBody (style_fonts sample_world));
     Spacer 1 15; Spacer 1 15] = 2.
Proof.
  apply (@story_one_spacer_per_section sample_reportlab regular_only_fonts
           (style_fonts sample_world) "My # Title" ["Body **text**"; "  " +:+ nl]).
  vm_compute. reflexivity.
Defined.

Lemma plain_body_line_verbatim_witness :
  @line_flowables sample_reportlab regular_only_fonts (style_fonts sample_world)
    "   Tea is brewed at 90 degrees.  " =
    (f <- @new_paragraph sample_reportlab regular_only_fonts
            (strip "   Tea is brewed at 90 degrees.  ")
            (CustomBody (style_fonts sample_world)) ;; inr [f]) /\
  (forall fs,
     @line_flowables sample_reportlab regular_only_fonts (style_fonts sample_world)
       "   Tea is brewed at 90 degrees.  " = inr fs ->
     fs = [Paragraph (strip "   Tea is brewed at 90 degrees.  ")
             (CustomBody (style_fonts sample_world))]).
Proof. apply plain_body_line_verbatim; vm_compute; reflexivity. Defined.

Example story_sample :
  @story sample_reportlab regular_only_fonts (style_fonts sample_world) "My # Title"
    ["## Heading" +:+ nl +:+ "Body **text**" +:+ nl +:+ nl +:+ "### deep"; ""] =
  inr [Paragraph "My  Title" (CustomTitle (style_fonts sample_world));
       Paragraph "Heading" (CustomH2 (style_fonts sample_world));
       Paragraph "Body <b>text</b>" (CustomBody (style_fonts sample_world));
       Paragraph "deep" (CustomH2 (style_fonts sample_world));
       Spacer 1 15;
       Spacer 1 15].
Proof. vm_compute. reflexivity. Qed.

Example heading_text_may_start_with_hash :
  @line_flowables sample_reportlab regular_only_fonts (style_fonts sample_world)
    "## # x" = inr [Paragraph "# x" (CustomH2 (style_fonts sample_world))].
Proof. vm_compute. reflexivity. Qed.

(** A line that meets every condition of X18 and still gives no paragraph:
    its stray tag is not accepted. *)
Example plain_line_markup_rejected :
  exn_kind_of <$>
    (match @line_flowables sample_reportlab regular_only_fonts
             (style_fonts sample_world) "x <b> y" with
     | inl e => Some e | inr _ => None end) = Some ValueError.
Proof. vm_compute. reflexivity. Qed.

(** ** The content service: failures *)

Section ContentFailures.

Context `{Library} `{Schema}.

(** X19. When the text extracted from the model response is not JSON, the
    content plan call fails with a [ValueError] whose message quotes the
    decoder's message and then the raw response, the whole of it and not
    only the extracted span; the decoder's exception itself does not
    escape. *)
Theorem content_plan_decode_failure
    (niche period channels extra_context : string) (w : world)
    (tpl prompt raw : string) (e : exn) :
  load_prompt "content_plan" w = inr tpl ->
  str_format tpl [("niche", niche); ("period", period); ("channels", channels);
                  ("extra_context", extra_context)] = inr prompt ->
  generate_sync prompt (VFloat 0.3%float) w = inr raw ->
  json_loads (_extract_json_from_text raw) = inl e ->
  exn_kind_of e = JSONDecodeError ->
  generate_content_plan niche period channels extra_context w =
  inl (Exn ValueError
         ("Ошибка парсинга ответа от LLM: " +:+ str_exn e +:+ nl +:+
          "Сырой ответ: " +:+ raw) None).
Proof.
  intros Ht Hp Hr Hj Hk. unfold generate_content_plan.
  rewrite Ht. cbn [bind]. rewrite Hp. cbn [bind]. rewrite Hr. cbn [bind].
  rewrite Hj. cbn [bind]. unfold format_error, raise. rewrite Hk.
  unfold nl. now str.
Qed.

(** X20. When the model answers with a JSON document that is neither an
    array nor an object (a number, a string, [null]), the content plan
    call fails with a [TypeError] that is not turned into the format
    error: the handler covers decoding and validation errors only. *)
Theorem content_plan_scalar_escapes
    (niche period channels extra_context : string) (w : world)
    (tpl prompt raw : string) (j : json) :
  load_prompt "content_plan" w = inr tpl ->
  str_format tpl [("niche", niche); ("period", period); ("channels", channels);
                  ("extra_context", extra_context)] = inr prompt ->
  generate_sync prompt (VFloat 0.3%float) w = inr raw ->
  json_loads (_extract_json_from_text raw) = inr j ->
  json_scalar j = true ->
  exists e,
    generate_content_plan niche period channels extra_context w = inl e /\
    exn_kind_of e = TypeError.
Proof.
  intros Ht Hp Hr Hj Hs. unfold generate_content_plan.
  rewrite Ht. cbn [bind]. rewrite Hp. cbn [bind]. rewrite Hr. cbn [bind].
  rewrite Hj. cbn [bind].
  destruct j; try discriminate Hs; cbn; eexists; split; reflexivity.
Qed.

(** X21. A missing template stops the service call that needs it, and
    only that one, at once with the [FileNotFoundError] of [load_prompt],
    which names the path of the file and is not wrapped: a stream function
    fails at the call, before a generator exists. *)
Theorem missing_template_stops_the_call (w : world) :
  let missing (path : string) :=
    Exn FileNotFoundError ("Файл шаблона промпта не найден: " +:+ path) None in
  (forall niche period channels extra_context,
     files w !! "assets/prompts/content_plan.txt" = None ->
     generate_content_plan niche period channels extra_context w =
       inl (missing "assets/prompts/content_plan.txt")) /\
  (forall channel business_niche topic tone brand_keywords,
     files w !! "assets/prompts/broadcasts.txt" = None ->
     generate_broadcast_stream channel business_niche topic tone brand_keywords w =
       inl (missing "assets/prompts/broadcasts.txt")) /\
  (forall lm_type topic audience length business_niche,
     files w !! "assets/prompts/lead_magnets.txt" = None ->
     generate_lead_magnet_stream lm_type topic audience length business_niche w =
       inl (missing "assets/prompts/lead_magnets.txt")) /\
  (forall business_niche topic target_keywords length,
     files w !! "assets/prompts/seo_articles.txt" = None ->
     generate_seo_article_stream business_niche topic target_keywords length w =
       inl (missing "assets/prompts/seo_articles.txt")).
Proof.
  intros missing.
  unfold generate_content_plan, generate_broadcast_stream,
    generate_lead_magnet_stream, generate_seo_article_stream, load_prompt.
  change (PROMPTS_DIR +:+ "/" +:+ "content_plan" +:+ ".txt")
    with "assets/prompts/content_plan.txt".
  change (PROMPTS_DIR +:+ "/" +:+ "broadcasts" +:+ ".txt")
    with "assets/prompts/broadcasts.txt".
  change (PROMPTS_DIR +:+ "/" +:+ "lead_magnets" +:+ ".txt")
    with "assets/prompts/lead_magnets.txt".
  change (PROMPTS_DIR +:+ "/" +:+ "seo_articles" +:+ ".txt")
    with "assets/prompts/seo_articles.txt".
  repeat split; intros; match goal with H : _ !! _ = None |- _ => now rewrite H end.
Qed.

End ContentFailures.

Lemma content_plan_decode_failure_witness :
  @generate_content_plan sample_library sample_schema
    "tea" "May" "mail" "none" prose_world =
  inl (Exn ValueError
         ("Ошибка парсинга ответа от LLM: " +:+
          "Expecting value: line 1 column 1 (char 0)" +:+ nl +:+
          "Сырой ответ: " +:+ "I cannot help with that.") None).
Proof.
  apply (@content_plan_decode_failure sample_library sample_schema
           "tea" "May" "mail" "none" prose_world
           "Plan for {niche}, {period}, {channels}. {extra_context}"
           "Plan for tea, May, mail. none"
           "I cannot help with that."
           (Exn JSONDecodeError "Expecting value: line 1 column 1 (char 0)" None));
    vm_compute; reflexivity.
Defined.

Lemma content_plan_scalar_escapes_witness :
  exists e,
    @generate_content_plan number_library sample_schema
      "tea" "May" "mail" "none" number_world = inl e /\
    exn_kind_of e = TypeError.
Proof.
  apply (@content_plan_scalar_escapes number_library sample_schema
           "tea" "May" "mail" "none" number_world
           "Plan for {niche}, {period}, {channels}. {extra_context}"
           "Plan for tea, May, mail. none" "42" (JNumber "42"));
    vm_compute; reflexivity.
Defined.

Lemma missing_template_stops_the_call_witness :
  @generate_broadcast_stream sample_library "mail" "tea" "oolong" "warm" "leaf"
    no_broadcast_template_world =
    inl (Exn FileNotFoundError
           ("Файл шаблона промпта не найден: " +:+ "assets/prompts/broadcasts.txt") None) /\
  files no_broadcast_template_world !! "assets/prompts/seo_articles.txt" =
    Some "Article about {topic} with {target_keywords}".
Proof.
  split; [|vm_compute; reflexivity].
  apply (proj1 (proj2 (@missing_template_stops_the_call sample_library sample_schema
                         no_broadcast_template_world))).
  vm_compute. reflexivity.
Defined.

Section ServiceTemperatures.

Context `{Library} `{Schema}.

(** X22. A failure of the model call reaches the caller of
    [generate_content_plan] as the [RuntimeError] of the client, not as
    the format error: only decoding and validation are inside the
    handler. *)
Theorem content_plan_transport_failure
    (niche period channels extra_context : string) (w : world)
    (tpl prompt : string) (e : exn) :
  load_prompt "content_plan" w = inr tpl ->
  str_format tpl [("niche", niche); ("period", period); ("channels", channels);
                  ("extra_context", extra_context)] = inr prompt ->
  generate_sync prompt (VFloat 0.3%float) w = inl e ->
  generate_content_plan niche period channels extra_context w = inl e /\
  exn_kind_of e = RuntimeError.
Proof.
  intros Ht Hp Hr. split.
  - unfold generate_content_plan. rewrite Ht. cbn [bind]. rewrite Hp. cbn [bind].
    now rewrite Hr.
  - unfold generate_sync in Hr. rewrite py_list_drains in Hr.
    destruct (raised (generate_stream prompt (VFloat 0.3%float) w)) as [e'|] eqn:Hs;
      cbn in Hr; [|discriminate].
    injection Hr as ->. now apply stream_raises_wrapped in Hs as [c ->].
Qed.

(** X23. The temperature chosen in the session has no effect on any of
    the three streaming kinds: each passes its own non-zero temperature,
    so whenever a call returns a generator, its request carries 0.7
    (broadcast post, lead magnet) or 0.8 (SEO article) whatever
    [llm_temperature] is set to. *)
Theorem stream_kinds_ignore_session_temperature (w : world) (giga : GigaChat) :
  _get_gigachat_client w = inr giga ->
  (forall channel business_niche topic tone brand_keywords g,
     generate_broadcast_stream channel business_niche topic tone brand_keywords w
       = inr g ->
     sent_temperatures g = [VFloat 0.7%float]) /\
  (forall lm_type topic audience length business_niche g,
     generate_lead_magnet_stream lm_type topic audience length business_niche w
       = inr g ->
     sent_temperatures g = [VFloat 0.7%float]) /\
  (forall business_niche topic target_keywords length g,
     generate_seo_article_stream business_niche topic target_keywords length w
       = inr g ->
     sent_temperatures g = [VFloat 0.8%float]).
Proof.
  intros Hc. repeat split; intros; unfold sent_temperatures;
    match goal with Hg : _ = inr _ |- _ =>
      apply bind_inr in Hg as [tpl [_ Hg]];
      apply bind_inr in Hg as [prompt [_ [= <-]]]
    end;
    now rewrite (generate_stream_requests _ _ _ _ Hc).
Qed.

End ServiceTemperatures.

Lemma content_plan_transport_failure_witness :
  @generate_content_plan sample_library sample_schema
    "tea" "May" "mail" "none" broken_transport_world =
    inl (wrap_transport (Exn SdkError "connection reset" None)) /\
  exn_kind_of (wrap_transport (Exn SdkError "connection reset" None)) = RuntimeError.
Proof.
  apply (@content_plan_transport_failure sample_library sample_schema
           "tea" "May" "mail" "none" broken_transport_world
           "Plan for {niche}, {period}, {channels}. {extra_context}"
           "Plan for tea, May, mail. none");
    vm_compute; reflexivity.
Defined.

Lemma stream_kinds_ignore_session_temperature_witness :
  session_state session_world !! "llm_temperature" = Some (VFloat 0.2%float) /\
  sent_temperatures
    (generate_stream "Post for mail about oolong, tone warm" (VFloat 0.7%float)
       session_world) = [VFloat 0.7%float] /\
  sent_temperatures
    (generate_stream "Article about oolong with buy tea" (VFloat 0.8%float)
       session_world) = [VFloat 0.8%float].
Proof.
  split; [vm_compute; reflexivity|].
  assert (exists giga, _get_gigachat_client session_world = inr giga) as [giga Hc]
    by (eexists; vm_compute; reflexivity).
  destruct (@stream_kinds_ignore_session_temperature sample_library
              session_world giga Hc) as (Hb & _ & Hs).
  split.
  - apply (Hb "mail" "tea" "oolong" "warm" "leaf"). vm_compute. reflexivity.
  - apply (Hs "tea" "oolong" "buy tea" "short"). vm_compute. reflexivity.
Defined.
